(** * Worker-process orchestration core of pt_hub.py (PowerTrader hub)

    A shallow embedding of the process supervision, readiness gate,
    Start All / Stop All sequencing and mtime-cached status reads of
    [src/pt_hub.py].  The Tk application object is a record [hub]; every
    method that mutates [self] is a function [hub -> hub].  The operating
    system is a process table ([alive]) whose processes only leave it on an
    explicit exit event: [terminate] sends a request and returns at once,
    as [Popen.terminate] does.  Observable actions (spawns, termination
    requests, error dialogs, writes of the status artifacts, changes of the
    pending flag) are appended to a chronological log. *)

From Stdlib Require Import String Ascii List ZArith Bool Lia.
Import ListNotations.
Open Scope string_scope.

(** ** Strings: [str.strip()] and [str.upper()] on ASCII text *)

Definition is_space (c : ascii) : bool :=
  let n := nat_of_ascii c in
  ((9 <=? n) && (n <=? 13))%nat || ((28 <=? n) && (n <=? 32))%nat.

Fixpoint lstrip (s : string) : string :=
  match s with
  | EmptyString => EmptyString
  | String c r => if is_space c then lstrip r else s
  end.

Fixpoint rev_str (s : string) (acc : string) : string :=
  match s with
  | EmptyString => acc
  | String c r => rev_str r (String c acc)
  end.

Definition strip (s : string) : string :=
  rev_str (lstrip (rev_str (lstrip s) EmptyString)) EmptyString.

Definition upper_char (c : ascii) : ascii :=
  let n := nat_of_ascii c in
  if ((97 <=? n) && (n <=? 122))%nat then ascii_of_nat (n - 32) else c.

Fixpoint upper (s : string) : string :=
  match s with
  | EmptyString => EmptyString
  | String c r => String (upper_char c) (upper r)
  end.

(** ** Python dicts with insertion order, as association lists *)

Fixpoint dict_get {V} (d : list (string * V)) (k : string) : option V :=
  match d with
  | [] => None
  | (k', v) :: r => if String.eqb k k' then Some v else dict_get r k
  end.

(** [d[k] = v]: an existing key keeps its position, a new one goes last. *)
Fixpoint dict_set {V} (d : list (string * V)) (k : string) (v : V) : list (string * V) :=
  match d with
  | [] => [(k, v)]
  | (k', v') :: r => if String.eqb k k' then (k, v) :: r else (k', v') :: dict_set r k v
  end.

Definition dict_get_default {V} (d : list (string * V)) (k : string) (dflt : V) : V :=
  match dict_get d k with Some v => v | None => dflt end.

(** [os.path.join] of a directory and a bare file name. *)
Definition join (d n : string) : string := d ++ "/" ++ n.

(** ** File contents the hub reads or writes *)

Inductive content :=
  (** [trainer_status.json]: [Some s] is a JSON object whose [str(st.get("state", ""))]
      is [s]; [None] is a file [_safe_read_json] does not turn into a dict. *)
  | CStatus (state : option string)
  (** [trainer_last_training_time.txt]: [float((raw or "").strip() or "0")],
      [None] when [float] raises (time stamps in whole seconds). *)
  | CStamp (ts : option Z)
  (** [runner_ready.json] holding a dict with [bool(st.get("ready", False))]. *)
  | CReady (ready : bool) (stage : string)
  (** a Python script, a marker file or any other file *)
  | CFile.

Record fs := mkFs { files : list (string * content); dirs : list string }.

Definition isfile (f : fs) (p : string) : bool :=
  match dict_get (files f) p with Some _ => true | None => false end.

Definition isdir (f : fs) (d : string) : bool := existsb (String.eqb d) (dirs f).

Definition fs_write (f : fs) (p : string) (c : content) : fs :=
  mkFs (dict_set (files f) p c) (dirs f).

Definition fs_mkdir (f : fs) (d : string) : fs :=
  if isdir f d then f else mkFs (files f) (dirs f ++ [d]).

(** [shutil.copy2(src, dst)] *)
Definition fs_copy (f : fs) (src dst : string) : fs :=
  match dict_get (files f) src with
  | Some c => fs_write f dst c
  | None => f
  end.

(** ** Operating system: process table and clock *)

Record osstate := mkOs {
  alive : list nat;        (** pids whose [poll()] is [None] *)
  next_pid : nat;
  spawn_fails : bool;      (** whether [subprocess.Popen] raises *)
  clock_ms : Z             (** wall clock in milliseconds *)
}.

(** [time.time()] in whole seconds *)
Definition now_s (o : osstate) : Z := clock_ms o / 1000.

Definition running (o : osstate) (p : option nat) : bool :=
  match p with
  | Some pid => existsb (Nat.eqb pid) (alive o)
  | None => false
  end.

Definition os_spawn (o : osstate) : nat * osstate :=
  (next_pid o, mkOs (next_pid o :: alive o) (S (next_pid o)) (spawn_fails o) (clock_ms o)).

Definition os_exit (o : osstate) (pid : nat) : osstate :=
  mkOs (filter (fun q => negb (Nat.eqb q pid)) (alive o)) (next_pid o) (spawn_fails o) (clock_ms o).

(** ** The hub object *)

(** Read-only configuration of one session. *)
Record config := mkConfig {
  coins : list string;
  coin_folders : list (string * string);   (** [build_coin_folders] result *)
  project_dir : string;
  hub_dir : string;
  script_neural_runner2 : string;          (** runner script basename *)
  script_neural_trainer : string;          (** trainer script basename *)
  proc_trainer_path : string;
  use_kucoin_api : bool;
  dry_run_mode : bool
}.

Definition runner_ready_path (c : config) : string := join (hub_dir c) "runner_ready.json".

(** [ProcInfo]: [proc] is the pid of the [Popen] object, if any. *)
Record procinfo := mkProcInfo {
  pname : string;
  ppath : string;
  proc : option nat;
  start_time : option Z
}.

(** [LogProc] (the log queue and reader thread are not modelled). *)
Record logproc := mkLogProc { info : procinfo; lp_coin : string; is_trainer : bool }.

Inductive role := RTrader | RNeural | RRunner (coin : string) | RTrainer (coin : string).

Inductive effect :=
  | ESpawn (r : role) (pid : nat) (path : string)
  | ETerminate (r : role) (pid : nat)
  | EError (title : string)
  | ESetPending (b : bool)
  | EWriteReady (ready : bool) (stage : string)
  | EWriteStatus (coin : string) (state : string)
  | EUncaught (exn : string).   (** Tk's [report_callback_exception] prints a traceback *)

(** Callbacks scheduled with [self.after]. *)
Inductive callback :=
  | CStartNeuralThenTrader
  | CPollCoins (cs : list string)
  | CPollSingle.

Record hub := mkHub {
  cfg : config;
  os : osstate;
  fsys : fs;
  env_kucoin : option string;          (** [os.environ["USE_KUCOIN_API"]] *)
  proc_neural : procinfo;
  proc_trader : procinfo;
  neural_runners : list (string * logproc);
  trainers : list (string * logproc);
  auto_start_trader_pending : bool;
  auto_start_runner_after_training : bool;
  trader_poll_count : nat;
  after_q : list (Z * callback);       (** Tk timer queue: (deadline in ms, callback) *)
  hlog : list effect
}.

Definition set_os (o : osstate) (h : hub) : hub :=
  mkHub (cfg h) o (fsys h) (env_kucoin h) (proc_neural h) (proc_trader h) (neural_runners h)
    (trainers h) (auto_start_trader_pending h) (auto_start_runner_after_training h)
    (trader_poll_count h) (after_q h) (hlog h).
Definition set_fsys (f : fs) (h : hub) : hub :=
  mkHub (cfg h) (os h) f (env_kucoin h) (proc_neural h) (proc_trader h) (neural_runners h)
    (trainers h) (auto_start_trader_pending h) (auto_start_runner_after_training h)
    (trader_poll_count h) (after_q h) (hlog h).
Definition set_env_kucoin (e : option string) (h : hub) : hub :=
  mkHub (cfg h) (os h) (fsys h) e (proc_neural h) (proc_trader h) (neural_runners h)
    (trainers h) (auto_start_trader_pending h) (auto_start_runner_after_training h)
    (trader_poll_count h) (after_q h) (hlog h).
Definition set_proc_neural (p : procinfo) (h : hub) : hub :=
  mkHub (cfg h) (os h) (fsys h) (env_kucoin h) p (proc_trader h) (neural_runners h)
    (trainers h) (auto_start_trader_pending h) (auto_start_runner_after_training h)
    (trader_poll_count h) (after_q h) (hlog h).
Definition set_proc_trader (p : procinfo) (h : hub) : hub :=
  mkHub (cfg h) (os h) (fsys h) (env_kucoin h) (proc_neural h) p (neural_runners h)
    (trainers h) (auto_start_trader_pending h) (auto_start_runner_after_training h)
    (trader_poll_count h) (after_q h) (hlog h).
Definition set_neural_runners (d : list (string * logproc)) (h : hub) : hub :=
  mkHub (cfg h) (os h) (fsys h) (env_kucoin h) (proc_neural h) (proc_trader h) d
    (trainers h) (auto_start_trader_pending h) (auto_start_runner_after_training h)
    (trader_poll_count h) (after_q h) (hlog h).
Definition set_trainers (d : list (string * logproc)) (h : hub) : hub :=
  mkHub (cfg h) (os h) (fsys h) (env_kucoin h) (proc_neural h) (proc_trader h) (neural_runners h)
    d (auto_start_trader_pending h) (auto_start_runner_after_training h)
    (trader_poll_count h) (after_q h) (hlog h).
Definition set_poll_count (n : nat) (h : hub) : hub :=
  mkHub (cfg h) (os h) (fsys h) (env_kucoin h) (proc_neural h) (proc_trader h) (neural_runners h)
    (trainers h) (auto_start_trader_pending h) (auto_start_runner_after_training h)
    n (after_q h) (hlog h).
Definition set_after_training (b : bool) (h : hub) : hub :=
  mkHub (cfg h) (os h) (fsys h) (env_kucoin h) (proc_neural h) (proc_trader h) (neural_runners h)
    (trainers h) (auto_start_trader_pending h) b
    (trader_poll_count h) (after_q h) (hlog h).
Definition set_after_q (q : list (Z * callback)) (h : hub) : hub :=
  mkHub (cfg h) (os h) (fsys h) (env_kucoin h) (proc_neural h) (proc_trader h) (neural_runners h)
    (trainers h) (auto_start_trader_pending h) (auto_start_runner_after_training h)
    (trader_poll_count h) q (hlog h).

(** Appending to the log. *)
Definition emit (e : effect) (h : hub) : hub :=
  mkHub (cfg h) (os h) (fsys h) (env_kucoin h) (proc_neural h) (proc_trader h) (neural_runners h)
    (trainers h) (auto_start_trader_pending h) (auto_start_runner_after_training h)
    (trader_poll_count h) (after_q h) (hlog h ++ [e]).

(** [self._auto_start_trader_pending = b], logged. *)
Definition set_pending (b : bool) (h : hub) : hub :=
  emit (ESetPending b)
    (mkHub (cfg h) (os h) (fsys h) (env_kucoin h) (proc_neural h) (proc_trader h) (neural_runners h)
       (trainers h) b (auto_start_runner_after_training h)
       (trader_poll_count h) (after_q h) (hlog h)).

Definition is_running (h : hub) (p : option nat) : bool := running (os h) p.

(** [self.after(ms, cb)]: the timer queue is kept ordered by deadline,
    timers with equal deadlines firing in the order they were set. *)
Fixpoint insert_timer (t : Z * callback) (q : list (Z * callback)) : list (Z * callback) :=
  match q with
  | [] => [t]
  | t' :: r => if Z.ltb (fst t) (fst t') then t :: q else t' :: insert_timer t r
  end.

Definition after (ms : Z) (cb : callback) (h : hub) : hub :=
  set_after_q (insert_timer ((clock_ms (os h) + ms)%Z, cb) (after_q h)) h.

(** [open(runner_ready_path, "w")] + [json.dump({"ready": r, "stage": s, ...})] *)
Definition write_ready (r : bool) (stage : string) (h : hub) : hub :=
  emit (EWriteReady r stage)
    (set_fsys (fs_write (fsys h) (runner_ready_path (cfg h)) (CReady r stage)) h).

(** ** ProcessSupervisor: [_start_process] / [_stop_process]

    Both take the [ProcInfo] object by reference; the hub only ever passes
    [self.proc_neural] or [self.proc_trader], selected here by [which]. *)

Inductive which := WNeural | WTrader.

Definition get_pi (w : which) (h : hub) : procinfo :=
  match w with WNeural => proc_neural h | WTrader => proc_trader h end.

Definition set_pi (w : which) (p : procinfo) (h : hub) : hub :=
  match w with WNeural => set_proc_neural p h | WTrader => set_proc_trader p h end.

Definition role_of (w : which) : role :=
  match w with WNeural => RNeural | WTrader => RTrader end.

Definition _start_process (w : which) (h : hub) : hub :=
  let p := get_pi w h in
  if is_running h (proc p) then h
  else if negb (isfile (fsys h) (ppath p)) then emit (EError "Missing script") h
  else if spawn_fails (os h) then emit (EError "Failed to start") h
  else
    let '(pid, o) := os_spawn (os h) in
    let h1 := set_os o h in
    let h2 := set_pi w (mkProcInfo (pname p) (ppath p) (Some pid) (Some (now_s o))) h1 in
    emit (ESpawn (role_of w) pid (ppath p)) h2.

Definition _stop_process (w : which) (h : hub) : hub :=
  let p := get_pi w h in
  match proc p with
  | Some pid =>
      if is_running h (Some pid) then
        set_pi w (mkProcInfo (pname p) (ppath p) (proc p) None)
          (emit (ETerminate (role_of w) pid) h)
      else h
  | None => h
  end.

Definition start_neural (h : hub) : hub :=
  let h1 := write_ready false "starting" h in
  let h2 := set_env_kucoin (Some (if use_kucoin_api (cfg h) then "1" else "0")) h1 in
  _start_process WNeural h2.

Definition start_trader (h : hub) : hub := _start_process WTrader h.
Definition stop_neural (h : hub) : hub := _stop_process WNeural h.
Definition stop_trader (h : hub) : hub := _stop_process WTrader h.

(** [start_trader_for_coin] falls back to the single trader process. *)
Definition start_trader_for_coin (coin : string) (h : hub) : hub := start_trader h.

(** ** Per-coin runners and trainers *)

Definition norm_coin (c : string) : string := upper (strip c).

Definition coin_cwd (h : hub) (coin : string) : string :=
  dict_get_default (coin_folders (cfg h)) coin (project_dir (cfg h)).

(** Alt coins: create the folder and copy the script from the BTC folder. *)
Definition prepare_alt_folder (coin name : string) (h : hub) : hub :=
  if String.eqb coin "BTC" then h
  else
    let cwd := coin_cwd h coin in
    let f1 := if isdir (fsys h) cwd then fsys h else fs_mkdir (fsys h) cwd in
    let src_main := dict_get_default (coin_folders (cfg h)) "BTC" (project_dir (cfg h)) in
    let src := join src_main name in
    let f2 := if isfile f1 src then fs_copy f1 src (join cwd name) else f1 in
    set_fsys f2 h.

Definition lp_running (h : hub) (d : list (string * logproc)) (coin : string) : bool :=
  match dict_get d coin with
  | Some lp => is_running h (proc (info lp))
  | None => false
  end.

(** Result of a method that may raise: the state reached, with the type
    of the exception that escaped, if any. *)
Inductive outcome := Ok (h : hub) | Raised (exn : string) (h : hub).

Definition start_neural_for_coin (coin0 : string) (h0 : hub) : outcome :=
  let coin := norm_coin coin0 in
  if String.eqb coin "" then Ok h0 else
  let cwd := coin_cwd h0 coin in
  let runner_name := script_neural_runner2 (cfg h0) in
  let h := prepare_alt_folder coin runner_name h0 in
  let rp := join cwd runner_name in
  (* [proc_neural_path] is never assigned, so the fallback is the project's copy *)
  let fallback := join (project_dir (cfg h)) runner_name in
  let rp' := if isfile (fsys h) rp then Some rp
             else if isfile (fsys h) fallback then Some fallback else None in
  match rp' with
  | None => Ok (emit (EError "Missing runner") h)
  | Some runner_path =>
      match dict_get (neural_runners h) coin with
      (* [self.neural_runners[coin].proc]: a [LogProc] has no attribute [proc] *)
      | Some _ => Raised "AttributeError" h
      | None =>
          if spawn_fails (os h) then Ok (emit (EError "Failed to start") h)
          else
            let '(pid, o) := os_spawn (os h) in
            let inf := mkProcInfo ("NeuralRunner-" ++ coin) runner_path (Some pid) None in
            let h1 := set_os o h in
            let h2 := set_neural_runners
                        (dict_set (neural_runners h1) coin (mkLogProc inf coin false)) h1 in
            Ok (emit (ESpawn (RRunner coin) pid runner_path) h2)
      end
  end.

Definition status_path (h : hub) (coin : string) : string :=
  join (coin_cwd h coin) "trainer_status.json".

Definition _start_single_trainer (coin0 : string) (h0 : hub) : hub :=
  let coin := norm_coin coin0 in
  if String.eqb coin "" then h0 else
  let cwd := coin_cwd h0 coin in
  let trainer_name := script_neural_trainer (cfg h0) in
  let h := prepare_alt_folder coin trainer_name h0 in
  let tp := join cwd trainer_name in
  let fb0 := join (project_dir (cfg h)) trainer_name in
  let fb := if isfile (fsys h) (proc_trainer_path (cfg h)) then proc_trainer_path (cfg h) else fb0 in
  let tp' := if isfile (fsys h) tp then Some tp
             else if isfile (fsys h) fb then Some fb else None in
  match tp' with
  | None => emit (EError "Missing trainer") h
  | Some trainer_path =>
      if lp_running h (trainers h) coin then h
      else if spawn_fails (os h) then emit (EError "Failed to start") h
      else
        let '(pid, o) := os_spawn (os h) in
        let inf := mkProcInfo ("Trainer-" ++ coin) trainer_path (Some pid) None in
        let h1 := set_os o h in
        let h2 := set_trainers (dict_set (trainers h1) coin (mkLogProc inf coin true)) h1 in
        let h3 := emit (ESpawn (RTrainer coin) pid trainer_path) h2 in
        emit (EWriteStatus coin "TRAINING")
          (set_fsys (fs_write (fsys h3) (status_path h3 coin) (CStatus (Some "TRAINING"))) h3)
  end.

(** ** Training state of a coin: [_coin_is_trained] *)

Definition fourteen_days : Z := 14 * 24 * 60 * 60.

(** [trainer_last_training_time.txt]: [None] when the file is missing,
    [Some None] when its content does not parse as a float. *)
Definition read_stamp (f : fs) (p : string) : option (option Z) :=
  match dict_get (files f) p with
  | Some (CStamp ts) => Some ts
  | Some _ => Some None
  | None => None
  end.

Definition stamp_recent (now : Z) (st : option (option Z)) : bool :=
  match st with
  | Some (Some ts) => (0 <? ts)%Z && (now - ts <=? fourteen_days)%Z
  | _ => false
  end.

(** [_safe_read_json(trainer_status.json)] seen as a dict: its state string. *)
Definition read_status (f : fs) (p : string) : option string :=
  match dict_get (files f) p with
  | Some (CStatus s) => s
  | _ => None
  end.

Definition _coin_is_trained (h : hub) (coin0 : string) : bool :=
  let coin := strip (upper coin0) in
  let folder := dict_get_default (coin_folders (cfg h)) coin "" in
  if String.eqb folder "" || negb (isdir (fsys h) folder) then false
  else if dry_run_mode (cfg h) && isfile (fsys h) (join folder "trained_model_saved.txt") then true
  else
    let stamp := read_stamp (fsys h) (join folder "trainer_last_training_time.txt") in
    let now := now_s (os h) in
    match read_status (fsys h) (join folder "trainer_status.json") with
    | Some s =>
        let state := upper s in
        if String.eqb state "FINISHED" then true
        else if String.eqb state "TRAINED" then true
        else if String.eqb state "TRAINING" then stamp_recent now stamp
        else stamp_recent now stamp           (* fallback: time stamp file *)
    | None => stamp_recent now stamp           (* fallback: time stamp file *)
    end.

(** [_training_status_map]: only the [TRAINED] entries matter to the flow
    gate, so the value kept here is whether the coin is [TRAINED]. *)
Definition _training_status_map (h : hub) : list (string * bool) :=
  fold_left (fun m c => dict_set m c (_coin_is_trained h c)) (coins (cfg h)) [].

(** [all(v == "TRAINED" for v in status_map.values()) if status_map else False] *)
Definition all_trained (h : hub) : bool :=
  match _training_status_map h with
  | [] => false
  | m => forallb snd m
  end.

(** ** Readiness gate and the Start All sequence *)

Definition _read_runner_ready (h : hub) : bool :=
  match dict_get (files (fsys h)) (runner_ready_path (cfg h)) with
  | Some (CReady r _) => r
  | _ => false
  end.

(** What one run of a poll callback did. *)
Inductive gate := GStop | GCancelled | GReady | GTimedOut | GAgain.

Definition start_traders (cs : list string) (h : hub) : hub :=
  fold_left (fun h c => start_trader_for_coin c h) cs h.

Definition _poll_runner_ready_then_start_trader_for_coins (cs : list string) (h : hub)
  : hub * gate :=
  if negb (auto_start_trader_pending h) then (h, GStop)
  else if negb (is_running h (proc (proc_neural h))) then (set_pending false h, GCancelled)
  else if _read_runner_ready h then (start_traders cs (set_pending false h), GReady)
  else
    let h1 := set_poll_count (S (trader_poll_count h)) h in
    if (20 <? trader_poll_count h1)%nat then (start_traders cs (set_pending false h1), GTimedOut)
    else (after 250 (CPollCoins cs) h1, GAgain).

Definition _poll_runner_ready_then_start_trader (h : hub) : hub * gate :=
  if negb (auto_start_trader_pending h) then (h, GStop)
  else if negb (is_running h (proc (proc_neural h))) then (set_pending false h, GCancelled)
  else if _read_runner_ready h then
    let h1 := set_pending false h in
    (if is_running h1 (proc (proc_trader h1)) then h1 else start_trader h1, GReady)
  else
    let h1 := set_poll_count (S (trader_poll_count h)) h in
    if (20 <? trader_poll_count h1)%nat then
      let h2 := set_pending false h1 in
      (if is_running h2 (proc (proc_trader h2)) then h2 else start_trader h2, GTimedOut)
    else (after 250 CPollSingle h1, GAgain).

(** The loop of [_start_neural_then_trader] over the trained coins; an
    exception ends it. *)
Fixpoint start_runners (cs : list string) (h : hub) : outcome :=
  match cs with
  | [] => Ok h
  | c :: r =>
      match start_neural_for_coin c h with
      | Ok h' => start_runners r h'
      | Raised e h' => Raised e h'
      end
  end.

Definition _start_neural_then_trader (h0 : hub) : outcome :=
  let h1 := set_poll_count 0 (set_pending true h0) in
  let trained := filter (_coin_is_trained h1) (coins (cfg h1)) in
  match start_runners trained h1 with
  | Ok h2 => Ok (after 500 (CPollCoins trained) h2)
  | Raised e h2 => Raised e h2
  end.

(** [train_all_coins]: the background launcher thread is modelled as
    having launched every trainer. *)
Definition train_all_coins (h : hub) : hub :=
  fold_left (fun h c => _start_single_trainer c h) (coins (cfg h)) (stop_neural h).

Definition start_all_scripts (h : hub) : hub :=
  train_all_coins (set_after_training true h).

(** The flow-gating part of [_tick]. *)
Definition _tick (h : hub) : hub :=
  if all_trained h && auto_start_runner_after_training h then
    after 5 CStartNeuralThenTrader (set_pending true (set_after_training false h))
  else h.

(** ** Stop All *)

(** Step 3 of [stop_all_scripts]: every trainer of [self.trainers] that is
    running gets [terminate()] and a [STOPPED] status file. *)
Definition stop_trainer_entry (h : hub) (e : string * logproc) : hub :=
  let '(coin, lp) := e in
  match proc (info lp) with
  | Some pid =>
      if is_running h (Some pid) then
        let h1 := emit (ETerminate (RTrainer coin) pid) h in
        emit (EWriteStatus coin "STOPPED")
          (set_fsys (fs_write (fsys h1) (status_path h1 coin) (CStatus (Some "STOPPED"))) h1)
      else h
  | None => h
  end.

Definition stop_trainers (h : hub) : hub := fold_left stop_trainer_entry (trainers h) h.

Definition stop_all_scripts (h : hub) : hub :=
  let h1 := set_pending false h in
  let h2 := stop_trader h1 in
  let h3 := stop_neural h2 in
  let h4 := stop_trainers h3 in
  write_ready false "stopped" h4.

(** ** The Tk event loop *)

Inductive event :=
  | EvTick                               (** the periodic [_tick] *)
  | EvFire                               (** the earliest [after] timer fires *)
  | EvStartAll                           (** Start All button *)
  | EvStopAll                            (** Stop All button *)
  | EvStartNeural                        (** Scripts > Start Neural Runner *)
  | EvExit (pid : nat)                   (** a worker process exits *)
  | EvWorkerWrite (path : string) (c : content).  (** a worker writes a file *)

(** An exception escaping a Tk callback is reported and the event loop goes on. *)
Definition tk_report (o : outcome) : hub :=
  match o with
  | Ok h => h
  | Raised e h => emit (EUncaught e) h
  end.

Definition run_callback (cb : callback) (h : hub) : hub :=
  match cb with
  | CStartNeuralThenTrader => tk_report (_start_neural_then_trader h)
  | CPollCoins cs => fst (_poll_runner_ready_then_start_trader_for_coins cs h)
  | CPollSingle => fst (_poll_runner_ready_then_start_trader h)
  end.

Definition set_clock (t : Z) (h : hub) : hub :=
  let o := os h in set_os (mkOs (alive o) (next_pid o) (spawn_fails o) (Z.max t (clock_ms o))) h.

Definition step (ev : event) (h : hub) : hub :=
  match ev with
  | EvTick => _tick h
  | EvFire =>
      match after_q h with
      | [] => h
      | (t, cb) :: q => run_callback cb (set_clock t (set_after_q q h))
      end
  | EvStartAll => start_all_scripts h
  | EvStopAll => stop_all_scripts h
  | EvStartNeural => start_neural h
  | EvExit pid => set_os (os_exit (os h) pid) h
  | EvWorkerWrite p c => set_fsys (fs_write (fsys h) p c) h
  end.

Definition run (evs : list event) (h : hub) : hub := fold_left (fun h e => step e h) evs h.

(** ** StateStore: the mtime-keyed caches of [_tick] *)

Module StateStore.

(** The file system seen by a read: [getmtime] and the raw text of a path
    ([None] when [os.path.getmtime] raises). *)
Definition fview := string -> option (Z * string).

Section Cached.
Variable V : Type.

(** [self._neural_overview_cache]: path -> (mtime, value) *)
Definition cache := list (string * (Z * V)).

(** The [_cached] closure of [_tick]: value, observed mtime, the new cache
    and whether [loader] ran. *)
Definition _cached (fv : fview) (c : cache) (path : string) (loader : string -> V) (default : V)
  : (V * option Z) * cache * bool :=
  match fv path with
  | None => ((default, None), c, false)
  | Some (mtime, raw) =>
      match dict_get c path with
      | Some (m, v) => if Z.eqb m mtime then ((v, Some mtime), c, false)
                       else let v' := loader raw in ((v', Some mtime), dict_set c path (mtime, v'), true)
      | None => let v' := loader raw in ((v', Some mtime), dict_set c path (mtime, v'), true)
      end
  end.

(** [self._trainer_status_cache] in the progress-bar part of [_tick]:
    coin -> {"mtime", "data"}.  [decode] is [json.load], [None] when it raises;
    the result is [st] ([{}] is [empty]). *)
Definition trainer_status_read (fv : fview) (c : cache) (coin path : string)
  (decode : string -> option V) (empty : V) : option V * cache * bool :=
  match fv path with
  | None => (None, c, false)                     (* not [os.path.exists]: "starting..." *)
  | Some (mtime, raw) =>
      match dict_get c coin with
      | Some (m, v) =>
          if Z.eqb m mtime then (Some v, c, false)
          else match decode raw with
               | Some v' => (Some v', dict_set c coin (mtime, v'), true)
               | None => (Some empty, c, true)
               end
      | None =>
          match decode raw with
          | Some v' => (Some v', dict_set c coin (mtime, v'), true)
          | None => (Some empty, c, true)
          end
      end
  end.

End Cached.

Arguments _cached {V}.
Arguments trainer_status_read {V}.

(** [int(float(s))] on decimal literals [[+-]digits[.digits]] (the only
    forms the workers write); [None] where Python raises. *)
Fixpoint digits_val (s : string) (acc : Z) : option (Z * string) :=
  match s with
  | String c r =>
      let n := nat_of_ascii c in
      if ((48 <=? n) && (n <=? 57))%nat
      then digits_val r (acc * 10 + Z.of_nat (n - 48))%Z
      else Some (acc, s)
  | EmptyString => Some (acc, EmptyString)
  end.

Fixpoint all_digits (s : string) : bool :=
  match s with
  | EmptyString => true
  | String c r => let n := nat_of_ascii c in ((48 <=? n) && (n <=? 57))%nat && all_digits r
  end.

Definition unsigned_int_of_float (s : string) : option Z :=
  match digits_val s 0 with
  | Some (z, rest) =>
      match rest with
      | EmptyString => if String.eqb s "" then None else Some z
      | String "."%char frac =>
          if String.eqb s "." then None
          else if all_digits frac then Some z else None
      | _ => None
      end
  | None => None
  end.

Definition int_of_float_str (s : string) : option Z :=
  match s with
  | String "-"%char r => option_map Z.opp (unsigned_int_of_float r)
  | String "+"%char r => unsigned_int_of_float r
  | _ => unsigned_int_of_float s
  end.

(** [read_int_from_file] applied to the file's text. *)
Definition read_int_from_file (raw : string) : Z :=
  match int_of_float_str (strip raw) with Some z => z | None => 0%Z end.

End StateStore.

(** ** A concrete session: one coin, BTC, run from the main neural folder *)

Module Session.

Definition cfg0 : config :=
  mkConfig ["BTC"] [("BTC", "/n")] "/p" "/h" "pt_thinker.py" "pt_trainer.py"
    "/p/pt_trainer.py" true false.

Definition fs0 : fs :=
  mkFs [("/n/pt_thinker.py", CFile); ("/n/pt_trainer.py", CFile);
        ("/p/pt_thinker.py", CFile); ("/p/pt_trainer.py", CFile); ("/p/pt_trader.py", CFile)]
       ["/n"; "/p"; "/h"].

Definition hub0 (f : fs) : hub :=
  mkHub cfg0 (mkOs [] 1 false 1000000) f None
    (mkProcInfo "Neural Runner" "/p/pt_thinker.py" None None)
    (mkProcInfo "Trader" "/p/pt_trader.py" None None)
    [] [] false false 0 [] [].

(** Start All, then the BTC trainer reports FINISHED and exits; the next
    tick observes every coin trained. *)
Definition trained_prefix : list event :=
  [EvStartAll; EvWorkerWrite "/n/trainer_status.json" (CStatus (Some "FINISHED")); EvExit 1; EvTick].

Definition trader_spawned (l : list effect) : bool :=
  existsb (fun e => match e with ESpawn RTrader _ _ => true | _ => false end) l.

(** A readiness artifact left at [ready=true] by a runner of an earlier
    session (the hub was closed without Stop All). *)
Definition fs_stale : fs :=
  mkFs (files fs0 ++ [("/h/runner_ready.json", CReady true "ready")]) (dirs fs0).

(** Start All up to the callback that spawns the per-coin runners. *)
Definition fleet_spawn : list event := trained_prefix ++ [EvFire].

Definition ready_written (l : list effect) : bool :=
  existsb (fun e => match e with EWriteReady _ _ => true | _ => false end) l.

(** Stop All lands between the tick that saw every coin trained and the
    callback it scheduled 5 ms later; that callback runs; before the first
    poll (500 ms later) the user starts the neural runner from the Scripts
    menu; the poll timers fire. *)
Definition stop_in_window : list event :=
  trained_prefix ++ [EvStopAll; EvFire; EvStartNeural] ++ repeat EvFire 21.

(** A BTC trainer is running while its script can no longer be found. *)
Definition fs_no_trainer : fs :=
  mkFs [("/n/pt_thinker.py", CFile); ("/p/pt_thinker.py", CFile); ("/p/pt_trader.py", CFile)]
       ["/n"; "/p"; "/h"].

Definition hub_training : hub :=
  mkHub cfg0 (mkOs [1%nat] 2 false 1000000) fs_no_trainer None
    (mkProcInfo "Neural Runner" "/p/pt_thinker.py" None None)
    (mkProcInfo "Trader" "/p/pt_trader.py" None None)
    [] [("BTC", mkLogProc (mkProcInfo "Trainer-BTC" "/n/pt_trainer.py" (Some 1%nat) None) "BTC" true)]
    false false 0 [] [].

Definition signal_path : string := "/n/.market/long_dca_signal.txt".

(** The fleet poll armed, with a neural runner started from the menu. *)
Definition poll_start : list event := fleet_spawn ++ [EvStartNeural].

Definition fv_signal : StateStore.fview :=
  fun q => if String.eqb q signal_path then Some (100%Z, "7") else None.

Definition hub_spawn_fails (f : fs) : hub := set_os (mkOs [] 1 true 1000000) (hub0 f).

Definition hub_no_coins : hub :=
  mkHub (mkConfig [] [("BTC", "/n")] "/p" "/h" "pt_thinker.py" "pt_trainer.py"
           "/p/pt_trainer.py" true false)
    (mkOs [] 1 false 1000000) fs0 None
    (mkProcInfo "Neural Runner" "/p/pt_thinker.py" None None)
    (mkProcInfo "Trader" "/p/pt_trader.py" None None)
    [] [] false false 0 [] [].

(** BTC's trainer was stopped by Stop All after a run that finished 500 s ago. *)
Definition fs_stopped : fs :=
  mkFs (files fs0 ++ [("/n/trainer_status.json", CStatus (Some "STOPPED"));
                      ("/n/trainer_last_training_time.txt", CStamp (Some 500%Z))])
       (dirs fs0).

End Session.

(** ** More of the hub: buttons, output reader, folder detection, clean-up *)

(** [toggle_all_scripts]: the Start/Stop All button. *)
Definition toggle_all_scripts (h : hub) : hub :=
  let neural_running := is_running h (proc (proc_neural h)) in
  let trader_running := is_running h (proc (proc_trader h)) in
  if neural_running || trader_running || auto_start_trader_pending h then stop_all_scripts h
  else start_all_scripts h.

(** [start_trainer_for_selected_coin] with the coin of [trainer_coin_var]. *)
Definition start_trainer_for_selected_coin (coin0 : string) (h : hub) : hub :=
  let coin := norm_coin coin0 in
  if String.eqb coin "" then h
  else _start_single_trainer coin (stop_neural h).

(** [stop_trainer_for_selected_coin]: the same terminate and STOPPED status
    file as one entry of the Stop All loop, for the selected coin only. *)
Definition stop_trainer_for_selected_coin (coin0 : string) (h : hub) : hub :=
  let coin := norm_coin coin0 in
  match dict_get (trainers h) coin with
  | Some lp => stop_trainer_entry h (coin, lp)
  | None => h
  end.

(** [stop_all_trainers]: its loop body is the one of step 3 of Stop All. *)
Definition stop_all_trainers (h : hub) : hub := fold_left stop_trainer_entry (trainers h) h.

(** [str.rstrip()] *)
Definition rstrip (s : string) : string := rev_str (lstrip (rev_str s EmptyString)) EmptyString.

(** [_reader_thread]: [reads] are the successive [readline()] results of
    the worker's stdout; [""] is end of file (the loop waits there until
    [poll()] reports the exit).  The result is what is put on the queue. *)
Fixpoint reader_lines (prefix : string) (reads : list string) : list string :=
  match reads with
  | [] => []
  | line :: r =>
      if String.eqb line "" then [] else (prefix ++ rstrip line) :: reader_lines prefix r
  end.

Definition _reader_thread (prefix : string) (reads : list string) : list string :=
  reader_lines prefix reads ++ [prefix ++ "[process exited]"].


(** The de-duplication loop at the end of [_running_trainers]. *)
Fixpoint dedupe_coins (seen : list string) (l : list string) : list string :=
  match l with
  | [] => []
  | c :: r =>
      let cc := norm_coin c in
      if negb (String.eqb cc "") && negb (existsb (String.eqb cc) seen)
      then cc :: dedupe_coins (cc :: seen) r
      else dedupe_coins seen r
  end.

(** The second loop of [_running_trainers]: a coin whose status file says
    TRAINING counts unless its time stamp is at least as recent as the
    status file ([getmtime] gives the modification times). *)
Definition trainer_running_elsewhere (getmtime : string -> Z) (h : hub) (c : string) : list string :=
  let coin := norm_coin c in
  let folder := dict_get_default (coin_folders (cfg h)) coin "" in
  if String.eqb folder "" || negb (isdir (fsys h) folder) then []
  else
    let sp := join folder "trainer_status.json" in
    match read_status (fsys h) sp with
    | Some s =>
        if String.eqb (upper s) "TRAINING" then
          let stp := join folder "trainer_last_training_time.txt" in
          if isfile (fsys h) stp && isfile (fsys h) sp && (getmtime sp <=? getmtime stp)%Z
          then [] else [coin]
        else []
    | None => []
    end.

Definition _running_trainers (getmtime : string -> Z) (h : hub) : list string :=
  dedupe_coins []
    (map fst (filter (fun e => is_running h (proc (info (snd e)))) (trainers h)) ++
     flat_map (trainer_running_elsewhere getmtime h) (coins (cfg h))).

(** [_training_status_map] with its three values. *)
Definition _training_status_map_full (getmtime : string -> Z) (h : hub) : list (string * string) :=
  let running := _running_trainers getmtime h in
  fold_left (fun out c =>
    dict_set out c (if _coin_is_trained h c then "TRAINED"
                    else if existsb (String.eqb c) running then "TRAINING"
                    else "NOT TRAINED")) (coins (cfg h)) [].

(** [fnmatch] for patterns whose only wildcard is [*]. *)
Fixpoint fnmatch (pat name : string) : bool :=
  match pat with
  | EmptyString => match name with EmptyString => true | String _ _ => false end
  | String c p' =>
      if Ascii.eqb c "*"%char then
        (fix star (n : string) : bool :=
           fnmatch p' n || match n with EmptyString => false | String _ n' => star n' end) name
      else match name with
           | String d n' => Ascii.eqb c d && fnmatch p' n'
           | EmptyString => false
           end
  end.

Fixpoint strip_prefix (pre s : string) : option string :=
  match pre, s with
  | EmptyString, _ => Some s
  | String a p, String b r => if Ascii.eqb a b then strip_prefix p r else None
  | String _ _, EmptyString => None
  end.

Fixpoint has_slash (s : string) : bool :=
  match s with
  | EmptyString => false
  | String c r => Ascii.eqb c "/"%char || has_slash r
  end.

(** Whether [p] is a file name directly inside [dir] that matches [pat]. *)
Definition glob_hit (dir pat p : string) : bool :=
  match strip_prefix (dir ++ "/") p with
  | Some n => negb (has_slash n) && fnmatch pat n
  | None => false
  end.

(** Characters that make [glob] read a path component as a pattern. *)
Fixpoint has_magic (s : string) : bool :=
  match s with
  | EmptyString => false
  | String c r => Ascii.eqb c "*"%char || Ascii.eqb c "?"%char || Ascii.eqb c "["%char || has_magic r
  end.

Definition ends_with_slash (s : string) : bool :=
  match rev_str s EmptyString with
  | String c _ => Ascii.eqb c "/"%char
  | EmptyString => false
  end.

(** A folder that [glob.glob(os.path.join(dir, pat))] lists literally: not
    empty, no wildcard character, no trailing slash. *)
Definition literal_dir (d : string) : bool :=
  negb (String.eqb d "") && negb (has_magic d) && negb (ends_with_slash d).

(** [glob.glob(os.path.join(dir, pat))] over the files, for a [dir] with
    [literal_dir dir]. *)
Definition glob (f : fs) (dir pat : string) : list string :=
  map fst (filter (fun e => glob_hit dir pat (fst e)) (files f)).

Definition fs_remove (f : fs) (p : string) : fs :=
  mkFs (filter (fun e => negb (String.eqb (fst e) p)) (files f)) (dirs f).

(** [os.remove(p)]: raises when [p] is no longer a file, or when the
    operating system refuses it ([rm_fails], e.g. a permission error). *)
Definition os_remove (rm_fails : string -> bool) (f : fs) (p : string) : option fs :=
  if rm_fails p || negb (isfile f p) then None else Some (fs_remove f p).

Definition clear_patterns : list string :=
  ["trainer_last_training_time.txt"; "trainer_status.json"; "trainer_last_start_time.txt";
   "killer.txt"; "memories_*.txt"; "memory_weights_*.txt"; "memory_weights_high_*.txt";
   "memory_weights_low_*.txt"; "neural_perfect_threshold_*.txt"].

(** One [try: os.remove(fp); deleted += 1 except Exception: pass]. *)
Definition remove_step (rm_fails : string -> bool) (acc : nat * fs) (fp : string) : nat * fs :=
  let '(n, f) := acc in
  match os_remove rm_fails f fp with
  | Some f' => (S n, f')
  | None => (n, f)
  end.

(** [_clear_training_data]: the number of files deleted, and the hub. *)
Definition _clear_training_data (rm_fails : string -> bool) (coin0 : string) (h : hub) : nat * hub :=
  let coin := norm_coin coin0 in
  let cwd := coin_cwd h coin in
  let '(deleted, f) :=
    fold_left (fun (acc : nat * fs) pat =>
      fold_left (remove_step rm_fails) (glob (snd acc) cwd pat) acc) clear_patterns (0%nat, fsys h) in
  (deleted, set_fsys f h).

(** ** Shapes of log entries used in the statements below *)

Open Scope list_scope.

Definition trader_stop (e : effect) : Prop := exists pid, e = ETerminate RTrader pid.
Definition neural_stop (e : effect) : Prop := exists pid, e = ETerminate RNeural pid.
Definition trainer_stop_step (e : effect) : Prop :=
  exists coin, (exists pid, e = ETerminate (RTrainer coin) pid) \/ e = EWriteStatus coin "STOPPED".

(** The fleet poll is armed with its callback as the only pending timer,
    its dependency is running and the readiness artifact says not ready. *)
Definition poll_waiting (cs : list string) (c : nat) (h : hub) : Prop :=
  auto_start_trader_pending h = true /\ is_running h (proc (proc_neural h)) = true /\
  _read_runner_ready h = false /\ trader_poll_count h = c /\
  exists t, after_q h = [(t, CPollCoins cs)].

(** C9 as the spec words it: a coin reports TRAINED when its status says
    FINISHED or TRAINED, or TRAINING with a time stamp at most 14 days old. *)
Definition reports_trained_spec (h : hub) (coin : string) : bool :=
  let folder := dict_get_default (coin_folders (cfg h)) coin "" in
  let stamp := read_stamp (fsys h) (join folder "trainer_last_training_time.txt") in
  match read_status (fsys h) (join folder "trainer_status.json") with
  | Some s => String.eqb (upper s) "FINISHED" || String.eqb (upper s) "TRAINED" ||
              (String.eqb (upper s) "TRAINING" && stamp_recent (now_s (os h)) stamp)
  | None => false
  end.

Definition all_trained_spec (h : hub) : bool := forallb (reports_trained_spec h) (coins (cfg h)).

(** The rule the code follows: the coin folder exists, and the dry-run
    marker is present, or the status says FINISHED or TRAINED, or the
    completion time stamp is positive and at most 14 days old (whatever
    else the status says, and also without a status file). *)
Definition coin_trained_amended (h : hub) (coin0 : string) : bool :=
  let coin := strip (upper coin0) in
  let folder := dict_get_default (coin_folders (cfg h)) coin "" in
  let state := match read_status (fsys h) (join folder "trainer_status.json") with
               | Some s => upper s | None => "" end in
  negb (String.eqb folder "") && isdir (fsys h) folder &&
  ((dry_run_mode (cfg h) && isfile (fsys h) (join folder "trained_model_saved.txt")) ||
   String.eqb state "FINISHED" || String.eqb state "TRAINED" ||
   stamp_recent (now_s (os h)) (read_stamp (fsys h) (join folder "trainer_last_training_time.txt"))).

(** The hub's handles and registries of processes are those of another hub. *)
Definition same_procs (h h' : hub) : Prop :=
  os h' = os h /\ proc_neural h' = proc_neural h /\ proc_trader h' = proc_trader h /\
  neural_runners h' = neural_runners h /\ trainers h' = trainers h.

(** The log gained at most one error report. *)
Definition log_err (h h' : hub) : Prop :=
  hlog h' = hlog h \/ exists t, hlog h' = hlog h ++ [EError t].

(** A status map whose every value is [f] of its key. *)
Definition keyed (f : string -> bool) (m : list (string * bool)) : Prop :=
  Forall (fun kv => snd kv = f (fst kv)) m.

(** A log entry of a trainer launch: its spawn, its TRAINING status file,
    or an error dialog. *)
Definition trainer_launch_step (e : effect) : Prop :=
  (exists coin pid path, e = ESpawn (RTrainer coin) pid path) \/
  (exists coin, e = EWriteStatus coin "TRAINING") \/ (exists t, e = EError t).

(** The hub's configuration, trader, neural runner, trainers, poll state,
    timers and clock are those of another hub. *)
Definition runner_frame (h h' : hub) : Prop :=
  cfg h' = cfg h /\ proc_neural h' = proc_neural h /\ proc_trader h' = proc_trader h /\
  trainers h' = trainers h /\ auto_start_trader_pending h' = auto_start_trader_pending h /\
  trader_poll_count h' = trader_poll_count h /\ after_q h' = after_q h /\
  clock_ms (os h') = clock_ms (os h).

(** A log entry of a per-coin runner start for one of the coins [l]: an
    error dialog or the spawn of the coin's runner. *)
Definition runner_step (l : list string) (e : effect) : Prop :=
  (exists s, e = EError s) \/ exists c pid p, In c l /\ e = ESpawn (RRunner (norm_coin c)) pid p.

(** * Properties *)

(** ** StateStore *)

Section CacheProps.
Import StateStore.

Lemma dict_get_set_same {V} (d : list (string * V)) k v : dict_get (dict_set d k v) k = Some v.
Proof.
  induction d as [|[k' v'] r IH]; simpl.
  - rewrite String.eqb_refl. reflexivity.
  - destruct (String.eqb k k') eqn:E; simpl.
    + rewrite String.eqb_refl. reflexivity.
    + rewrite E. exact IH.
Qed.

(** C4: the three cases of the mtime-cached read, and one decode for two
    reads of the same file at the same mtime. *)
Theorem cached_mtime_contract {V} (fv : fview) (c : cache V) (path : string)
    (loader : string -> V) (default : V) :
  (fv path = None -> _cached fv c path loader default = ((default, None), c, false)) /\
  (forall m raw v, fv path = Some (m, raw) -> dict_get c path = Some (m, v) ->
     _cached fv c path loader default = ((v, Some m), c, false)) /\
  (forall m raw, fv path = Some (m, raw) ->
     (forall v, dict_get c path <> Some (m, v)) ->
     _cached fv c path loader default
       = ((loader raw, Some m), dict_set c path (m, loader raw), true)) /\
  (forall m raw, fv path = Some (m, raw) ->
     let '(_, c1, _) := _cached fv c path loader default in
     let '(r2, c2, dec2) := _cached fv c1 path loader default in
     dec2 = false /\ c2 = c1 /\
     r2 = fst (fst (_cached fv c path loader default))).
Proof.
  unfold _cached. split; [|split; [|split]].
  - intros H. rewrite H. reflexivity.
  - intros m raw v H Hc. rewrite H, Hc, Z.eqb_refl. reflexivity.
  - intros m raw H Hn. rewrite H.
    destruct (dict_get c path) as [[m' v']|] eqn:E; [|reflexivity].
    destruct (Z.eqb m' m) eqn:Em; [|reflexivity].
    apply Z.eqb_eq in Em. subst m'. exfalso. exact (Hn v' eq_refl).
  - intros m raw H. rewrite H.
    destruct (dict_get c path) as [[m' v']|] eqn:E.
    + destruct (Z.eqb m' m) eqn:Em.
      * rewrite E, Em. auto.
      * rewrite dict_get_set_same, Z.eqb_refl. auto.
    + rewrite dict_get_set_same, Z.eqb_refl. auto.
Qed.

End CacheProps.

(** ** Stop All *)

Lemma hlog_emit e h : hlog (emit e h) = hlog h ++ [e].
Proof. reflexivity. Qed.

Lemma stop_process_log w h :
  hlog (_stop_process w h) = hlog h \/
  exists pid, hlog (_stop_process w h) = hlog h ++ [ETerminate (role_of w) pid].
Proof.
  unfold _stop_process. destruct (proc (get_pi w h)) as [pid|]; [|auto].
  destruct (is_running h (Some pid)); [|auto].
  right. exists pid. destruct w; reflexivity.
Qed.

Lemma stop_process_pending w h :
  auto_start_trader_pending (_stop_process w h) = auto_start_trader_pending h.
Proof.
  unfold _stop_process. destruct (proc (get_pi w h)) as [pid|]; [|auto].
  destruct (is_running h (Some pid)); [|auto]. destruct w; reflexivity.
Qed.

Lemma stop_trainer_entry_log h e :
  exists t, hlog (stop_trainer_entry h e) = hlog h ++ t /\ Forall trainer_stop_step t.
Proof.
  destruct e as [coin lp]. unfold stop_trainer_entry.
  destruct (proc (info lp)) as [pid|].
  - destruct (is_running h (Some pid)).
    + exists [ETerminate (RTrainer coin) pid; EWriteStatus coin "STOPPED"].
      split.
      * simpl. rewrite <- app_assoc. reflexivity.
      * constructor; [exists coin; left; exists pid; reflexivity|].
        constructor; [exists coin; right; reflexivity|constructor].
    + exists []. rewrite app_nil_r. auto.
  - exists []. rewrite app_nil_r. auto.
Qed.

Lemma stop_trainer_entry_pending h e :
  auto_start_trader_pending (stop_trainer_entry h e) = auto_start_trader_pending h.
Proof.
  destruct e as [coin lp]. unfold stop_trainer_entry.
  destruct (proc (info lp)) as [pid|]; [|reflexivity].
  destruct (is_running h (Some pid)); reflexivity.
Qed.

Lemma fold_stop_trainers_log l h :
  exists t, hlog (fold_left stop_trainer_entry l h) = hlog h ++ t /\ Forall trainer_stop_step t.
Proof.
  revert h. induction l as [|e r IH]; intros h; simpl.
  - exists []. rewrite app_nil_r. auto.
  - destruct (stop_trainer_entry_log h e) as [t1 [E1 F1]].
    destruct (IH (stop_trainer_entry h e)) as [t2 [E2 F2]].
    exists (t1 ++ t2). split.
    + rewrite E2, E1, app_assoc. reflexivity.
    + apply Forall_app. auto.
Qed.

Lemma fold_stop_trainers_pending l h :
  auto_start_trader_pending (fold_left stop_trainer_entry l h) = auto_start_trader_pending h.
Proof.
  revert h. induction l as [|e r IH]; intros h; simpl; [reflexivity|].
  rewrite IH. apply stop_trainer_entry_pending.
Qed.

Lemma write_ready_read r st h : _read_runner_ready (write_ready r st h) = r.
Proof.
  unfold _read_runner_ready, write_ready. simpl. rewrite dict_get_set_same. reflexivity.
Qed.

(** C7: Stop All clears the pending flag first, then requests termination
    of the trader, then of the neural runner, then of every running trainer
    (with its STOPPED status file), and writes [ready=false] last. *)
Theorem stop_all_reverse_order (h : hub) :
  exists t1 t2 t3,
    hlog (stop_all_scripts h)
      = hlog h ++ [ESetPending false] ++ t1 ++ t2 ++ t3 ++ [EWriteReady false "stopped"] /\
    Forall trader_stop t1 /\ Forall neural_stop t2 /\ Forall trainer_stop_step t3 /\
    auto_start_trader_pending (stop_all_scripts h) = false /\
    _read_runner_ready (stop_all_scripts h) = false.
Proof.
  unfold stop_all_scripts.
  set (h1 := set_pending false h).
  set (h2 := stop_trader h1).
  set (h3 := stop_neural h2).
  assert (E1 : hlog h1 = hlog h ++ [ESetPending false]) by reflexivity.
  assert (Ex2 : exists t1, hlog h2 = hlog h1 ++ t1 /\ Forall trader_stop t1).
  { destruct (stop_process_log WTrader h1) as [E|[pid E]].
    - exists []. rewrite app_nil_r. auto.
    - exists [ETerminate RTrader pid]. split; [exact E|].
      constructor; [exists pid; reflexivity|constructor]. }
  assert (Ex3 : exists t2, hlog h3 = hlog h2 ++ t2 /\ Forall neural_stop t2).
  { destruct (stop_process_log WNeural h2) as [E|[pid E]].
    - exists []. rewrite app_nil_r. auto.
    - exists [ETerminate RNeural pid]. split; [exact E|].
      constructor; [exists pid; reflexivity|constructor]. }
  destruct Ex2 as [t1 [E2 F1]]. destruct Ex3 as [t2 [E3 F2]].
  destruct (fold_stop_trainers_log (trainers h3) h3) as [t3 [E4 F3]].
  exists t1, t2, t3. split; [|split; [exact F1|split; [exact F2|split; [exact F3|split]]]].
  - unfold write_ready, stop_trainers. rewrite hlog_emit. simpl hlog.
    rewrite E4, E3, E2, E1. repeat rewrite <- app_assoc. reflexivity.
  - unfold write_ready, stop_trainers. simpl.
    rewrite fold_stop_trainers_pending. unfold h3, h2, stop_neural, stop_trader.
    rewrite !stop_process_pending. reflexivity.
  - apply write_ready_read.
Qed.

(** ** Readiness gate: fail-open timeout *)

Lemma start_process_after_q w h : after_q (_start_process w h) = after_q h.
Proof.
  unfold _start_process.
  destruct (is_running h (proc (get_pi w h))); [reflexivity|].
  destruct (negb (isfile (fsys h) (ppath (get_pi w h)))); [reflexivity|].
  destruct (spawn_fails (os h)); [reflexivity|]. destruct w; reflexivity.
Qed.

Lemma start_process_pending w h :
  auto_start_trader_pending (_start_process w h) = auto_start_trader_pending h.
Proof.
  unfold _start_process.
  destruct (is_running h (proc (get_pi w h))); [reflexivity|].
  destruct (negb (isfile (fsys h) (ppath (get_pi w h)))); [reflexivity|].
  destruct (spawn_fails (os h)); [reflexivity|]. destruct w; reflexivity.
Qed.

Lemma start_traders_after_q cs h : after_q (start_traders cs h) = after_q h.
Proof.
  unfold start_traders. revert h. induction cs as [|c r IH]; intros h; simpl; [reflexivity|].
  rewrite IH. apply start_process_after_q.
Qed.

Lemma start_traders_pending cs h :
  auto_start_trader_pending (start_traders cs h) = auto_start_trader_pending h.
Proof.
  unfold start_traders. revert h. induction cs as [|c r IH]; intros h; simpl; [reflexivity|].
  rewrite IH. apply start_process_pending.
Qed.

Lemma poll_waiting_fire cs c h :
  poll_waiting cs c h -> (c < 20)%nat -> poll_waiting cs (S c) (step EvFire h).
Proof.
  intros [Hp [Hr [Hready [Hc [t Hq]]]]] Hlt.
  set (h' := set_clock t (set_after_q [] h)).
  assert (E0 : step EvFire h = fst (_poll_runner_ready_then_start_trader_for_coins cs h'))
    by (simpl; rewrite Hq; reflexivity).
  assert (Hp' : auto_start_trader_pending h' = true) by exact Hp.
  assert (Hr' : is_running h' (proc (proc_neural h')) = true) by exact Hr.
  assert (Hready' : _read_runner_ready h' = false) by exact Hready.
  assert (Hc' : trader_poll_count h' = c) by exact Hc.
  rewrite E0. unfold _poll_runner_ready_then_start_trader_for_coins.
  rewrite Hp', Hr', Hready'. simpl negb. cbv iota.
  assert (E : (20 <? trader_poll_count (set_poll_count (S (trader_poll_count h')) h'))%nat = false)
    by (simpl; apply Nat.ltb_ge; lia).
  rewrite E. simpl fst.
  repeat split; [exact Hp'|exact Hr'|exact Hready'|
    transitivity (S (trader_poll_count h')); [reflexivity|now rewrite Hc']|].
  eexists. reflexivity.
Qed.

Lemma poll_waiting_fires cs n c h :
  poll_waiting cs c h -> (c + n <= 20)%nat -> poll_waiting cs (c + n) (run (repeat EvFire n) h).
Proof.
  revert c h. induction n as [|n IH]; intros c h Hw Hle.
  - rewrite Nat.add_0_r. exact Hw.
  - simpl. replace (c + S n)%nat with (S c + n)%nat by lia.
    apply IH; [apply poll_waiting_fire; [exact Hw|lia]|lia].
Qed.

Lemma poll_waiting_timeout cs h :
  poll_waiting cs 20 h ->
  exists h', step EvFire h = fst (_poll_runner_ready_then_start_trader_for_coins cs h') /\
    snd (_poll_runner_ready_then_start_trader_for_coins cs h') = GTimedOut /\
    fst (_poll_runner_ready_then_start_trader_for_coins cs h')
      = start_traders cs (set_pending false (set_poll_count 21 h')) /\
    after_q h' = [].
Proof.
  intros [Hp [Hr [Hready [Hc [t Hq]]]]].
  set (h' := set_clock t (set_after_q [] h)).
  assert (E0 : step EvFire h = fst (_poll_runner_ready_then_start_trader_for_coins cs h'))
    by (simpl; rewrite Hq; reflexivity).
  assert (Hp' : auto_start_trader_pending h' = true) by exact Hp.
  assert (Hr' : is_running h' (proc (proc_neural h')) = true) by exact Hr.
  assert (Hready' : _read_runner_ready h' = false) by exact Hready.
  assert (Hc' : trader_poll_count h' = 20%nat) by exact Hc.
  exists h'. split; [exact E0|].
  unfold _poll_runner_ready_then_start_trader_for_coins.
  rewrite Hp', Hr', Hready'. simpl negb. cbv iota.
  assert (E : (20 <? trader_poll_count (set_poll_count (S (trader_poll_count h')) h'))%nat = true)
    by (change ((20 <? S (trader_poll_count h'))%nat = true); rewrite Hc'; reflexivity).
  rewrite E. cbn [fst snd]. rewrite Hc'. split; [reflexivity|split; reflexivity].
Qed.

Lemma run_app evs1 evs2 h : run (evs1 ++ evs2) h = run evs2 (run evs1 h).
Proof. unfold run. apply fold_left_app. Qed.

(** C3: with the dependency running and the artifact never ready, the fleet
    poll keeps waiting for exactly [21 - c] firings (its counter starts at
    [c], reset to 0 by [_start_neural_then_trader]); the last one times out,
    clears the pending flag, starts the trader role and schedules nothing. *)
Theorem poll_times_out_after_bounded_attempts (cs : list string) (c : nat) (h : hub) :
  poll_waiting cs c h -> (c <= 20)%nat ->
  (forall n, (n < 21 - c)%nat -> poll_waiting cs (c + n) (run (repeat EvFire n) h)) /\
  exists h',
    run (repeat EvFire (21 - c)) h = fst (_poll_runner_ready_then_start_trader_for_coins cs h') /\
    snd (_poll_runner_ready_then_start_trader_for_coins cs h') = GTimedOut /\
    run (repeat EvFire (21 - c)) h = start_traders cs (set_pending false (set_poll_count 21 h')) /\
    after_q (run (repeat EvFire (21 - c)) h) = [] /\
    auto_start_trader_pending (run (repeat EvFire (21 - c)) h) = false.
Proof.
  intros Hw Hle. split.
  - intros n Hn. apply poll_waiting_fires; [exact Hw|lia].
  - assert (Hw20 : poll_waiting cs 20 (run (repeat EvFire (20 - c)) h)).
    { replace 20%nat with (c + (20 - c))%nat at 1 by lia.
      apply poll_waiting_fires; [exact Hw|lia]. }
    destruct (poll_waiting_timeout cs _ Hw20) as [h' [E1 [E2 [E3 Eq]]]].
    assert (Er : run (repeat EvFire (21 - c)) h = step EvFire (run (repeat EvFire (20 - c)) h)).
    { replace (21 - c)%nat with ((20 - c) + 1)%nat by lia.
      rewrite repeat_app, run_app. reflexivity. }
    exists h'. rewrite Er, E1.
    split; [reflexivity|]. split; [exact E2|]. split; [exact E3|]. split.
    + rewrite E3, start_traders_after_q. exact Eq.
    + rewrite E3, start_traders_pending. reflexivity.
Qed.

(** ** Concrete runs of the Start All sequence *)

Section Runs.
Import Session.

(** C1: the per-coin path ([_start_neural_then_trader] ->
    [start_neural_for_coin]) spawns the BTC runner without touching the
    readiness artifact, so a stale [ready=true] survives the spawn. *)
Theorem fleet_spawn_keeps_stale_ready :
  let h := run fleet_spawn (hub0 fs_stale) in
  lp_running h (neural_runners h) "BTC" = true /\
  ready_written (hlog h) = false /\
  _read_runner_ready h = true.
Proof. vm_compute. auto. Qed.

(** C2: the fleet poll checks [self.proc_neural], not the runners spawned
    for the sequence: with the BTC runner running and [ready=true], the
    poll cancels the trader start. *)
Theorem fleet_poll_checks_wrong_process :
  let h := run (fleet_spawn ++ [EvWorkerWrite "/h/runner_ready.json" (CReady true "ready")])
               (hub0 fs0) in
  lp_running h (neural_runners h) "BTC" = true /\
  _read_runner_ready h = true /\
  after_q h = [(1000505%Z, CPollCoins ["BTC"])] /\
  snd (_poll_runner_ready_then_start_trader_for_coins ["BTC"] h) = GCancelled /\
  trader_spawned (hlog (step EvFire h)) = false.
Proof. vm_compute. auto 6. Qed.

(** C8: Stop All issued after the tick saw all coins trained does not stop
    the sequence: the scheduled [_start_neural_then_trader] sets the
    pending flag again, and the poll chain ends by spawning the trader. *)
Theorem stop_all_in_window_still_spawns_trader :
  let h := run stop_in_window (hub0 fs0) in
  trader_spawned (hlog h) = true /\
  skipn 3 (hlog h) =
    [ESetPending false; EWriteReady false "stopped";
     ESetPending true; ESpawn (RRunner "BTC") 2 "/n/pt_thinker.py";
     EWriteReady false "starting"; ESpawn RNeural 3 "/p/pt_thinker.py";
     ESetPending false; ESpawn RTrader 4 "/p/pt_trader.py"].
Proof. vm_compute. auto. Qed.

End Runs.

(** ** StateStore: failed decodes *)

Section DecodeFailure.
Import StateStore Session.

(** C5: an empty signal file (a writer mid-write) fails [int(float(""))];
    [_cached] stores the default under the observed mtime and the next
    read at that mtime returns it without decoding, even once the file
    holds [7]. *)
Theorem cached_stores_failed_decode :
  let fv1 : fview := fun q => if String.eqb q signal_path then Some (100%Z, "") else None in
  let fv2 : fview := fun q => if String.eqb q signal_path then Some (100%Z, "7") else None in
  let '(r1, c1, d1) := _cached fv1 [] signal_path read_int_from_file 0%Z in
  let '(r2, c2, d2) := _cached fv2 c1 signal_path read_int_from_file 0%Z in
  int_of_float_str (strip "") = None /\ read_int_from_file "7" = 7%Z /\
  r1 = (0%Z, Some 100%Z) /\ d1 = true /\ c1 = [(signal_path, (100%Z, 0%Z))] /\
  d2 = false /\ r2 = (0%Z, Some 100%Z).
Proof. vm_compute. auto 8. Qed.

(** The trainer-status cache of the same tick does not store a failed
    [json.load]. *)
Lemma trainer_status_read_failure_not_cached {V} (fv : fview) (c : cache V) coin path
    (decode : string -> option V) (empty : V) m raw :
  fv path = Some (m, raw) -> decode raw = None ->
  snd (fst (trainer_status_read fv c coin path decode empty)) = c.
Proof.
  intros H D. unfold trainer_status_read. rewrite H.
  destruct (dict_get c coin) as [[m' v']|].
  - destruct (Z.eqb m' m); [reflexivity|]. rewrite D. reflexivity.
  - rewrite D. reflexivity.
Qed.

End DecodeFailure.

(** ** Idempotent start *)

Lemma start_process_running_noop w h :
  is_running h (proc (get_pi w h)) = true -> _start_process w h = h.
Proof. intros H. unfold _start_process. rewrite H. reflexivity. Qed.

Section StartTwice.
Import Session.

(** C6: with the BTC trainer running, a second start whose script cannot be
    resolved reports "Missing trainer" before the duplicate check. *)
Theorem start_trainer_running_reports_missing :
  lp_running hub_training (trainers hub_training) "BTC" = true /\
  hlog (_start_single_trainer "BTC" hub_training) = [EError "Missing trainer"] /\
  trainers (_start_single_trainer "BTC" hub_training) = trainers hub_training.
Proof. vm_compute. auto. Qed.

End StartTwice.

(** ** Fleet-level AllTrained *)

Lemma coin_is_trained_amended h c : _coin_is_trained h c = coin_trained_amended h c.
Proof.
  unfold _coin_is_trained, coin_trained_amended. cbv zeta.
  destruct (String.eqb (dict_get_default (coin_folders (cfg h)) (strip (upper c)) "") ""); [reflexivity|].
  destruct (isdir _ _); [|reflexivity]. simpl.
  destruct (dry_run_mode (cfg h) && isfile _ _); [reflexivity|]. simpl.
  destruct (read_status _ _) as [st|]; [|reflexivity].
  destruct (String.eqb (upper st) "FINISHED"); [reflexivity|].
  destruct (String.eqb (upper st) "TRAINED"); [reflexivity|].
  destruct (String.eqb (upper st) "TRAINING"); reflexivity.
Qed.

Section StatusMap.
Variable f : string -> bool.

Lemma dict_set_keyed m c : keyed f m -> keyed f (dict_set m c (f c)) /\
  forallb snd (dict_set m c (f c)) = forallb snd m && f c.
Proof.
  induction m as [|[k v] r IH]; intros Hm; simpl.
  - split; [constructor; [reflexivity|constructor]|]. simpl. rewrite andb_true_r. reflexivity.
  - inversion Hm as [|x y Hkv Hr]; subst. simpl in Hkv.
    destruct (String.eqb c k) eqn:E.
    + apply String.eqb_eq in E. subst k. split.
      * constructor; [reflexivity|exact Hr].
      * simpl. rewrite Hkv. destruct (f c); simpl; [rewrite andb_true_r|]; reflexivity.
    + destruct (IH Hr) as [Hk Hf]. split.
      * constructor; [exact Hkv|exact Hk].
      * simpl. rewrite Hf. apply andb_assoc.
Qed.

Lemma status_map_forallb l m0 : keyed f m0 ->
  forallb snd (fold_left (fun m c => dict_set m c (f c)) l m0) = forallb snd m0 && forallb f l.
Proof.
  revert m0. induction l as [|c r IH]; intros m0 Hm; simpl.
  - rewrite andb_true_r. reflexivity.
  - destruct (dict_set_keyed m0 c Hm) as [Hk Hf].
    rewrite (IH _ Hk), Hf. rewrite andb_assoc. reflexivity.
Qed.

Lemma dict_set_not_nil {V} (m : list (string * V)) c v : dict_set m c v <> [].
Proof. destruct m as [|[k v'] r]; simpl; [discriminate|]. destruct (String.eqb c k); discriminate. Qed.

Lemma status_map_nil l m0 :
  fold_left (fun m c => dict_set m c (f c)) l m0 = [] -> l = [] /\ m0 = [].
Proof.
  revert m0. induction l as [|c r IH]; intros m0 H; simpl in H; [auto|].
  destruct (IH _ H) as [_ Hn]. exfalso. exact (dict_set_not_nil m0 c (f c) Hn).
Qed.

End StatusMap.

Section TrainedRuns.
Import Session.

(** C9, as stated, fails twice: with no managed coin the flag is false,
    and a STOPPED coin with a recent completion stamp counts as trained. *)
Theorem all_trained_claim_cex :
  coins (cfg hub_no_coins) = [] /\
  ~ (all_trained hub_no_coins = true <-> all_trained_spec hub_no_coins = true) /\
  ~ (all_trained (hub0 fs_stopped) = true <-> all_trained_spec (hub0 fs_stopped) = true).
Proof.
  vm_compute. split; [reflexivity|split].
  - intros [_ H]. discriminate (H eq_refl).
  - intros [H _]. discriminate (H eq_refl).
Qed.

End TrainedRuns.

(** C9 (amended): AllTrained holds iff the coin list is non-empty and every
    coin is trained by the rule of [coin_trained_amended]. *)
Theorem all_trained_iff (h : hub) :
  all_trained h = true <->
  coins (cfg h) <> [] /\ forallb (coin_trained_amended h) (coins (cfg h)) = true.
Proof.
  unfold all_trained, _training_status_map.
  assert (Hf : forall l, forallb (_coin_is_trained h) l = forallb (coin_trained_amended h) l).
  { induction l as [|c r IH]; simpl; [reflexivity|]. rewrite coin_is_trained_amended, IH. reflexivity. }
  rewrite <- Hf.
  destruct (fold_left _ (coins (cfg h)) []) as [|kv m] eqn:E.
  - apply status_map_nil in E. destruct E as [E _]. rewrite E. split; [discriminate|].
    intros [H _]. contradiction.
  - rewrite <- E, (status_map_forallb (_coin_is_trained h)); [|constructor].
    simpl. split.
    + intros H. split; [|exact H]. intros Hn. rewrite Hn in E. simpl in E. discriminate.
    + intros [_ H]. exact H.
Qed.

(** ** Spawn failure *)

Section SpawnFailure.
Import Session.

(** C10, as stated, fails for [start_neural]: when [Popen] raises, the
    readiness artifact has already been reset and [USE_KUCOIN_API] set. *)
Theorem start_neural_spawn_failure_not_rolled_back :
  let h := hub_spawn_fails fs_stale in
  is_running h (proc (proc_neural h)) = false /\
  isfile (fsys h) (ppath (proc_neural h)) = true /\
  proc_neural (start_neural h) = proc_neural h /\
  hlog (start_neural h) = [EWriteReady false "starting"; EError "Failed to start"] /\
  env_kucoin h = None /\ env_kucoin (start_neural h) = Some "1" /\
  _read_runner_ready h = true /\ _read_runner_ready (start_neural h) = false /\
  start_neural h <> emit (EError "Failed to start") h.
Proof.
  split; [reflexivity|]. do 7 (split; [reflexivity|]).
  intros H. apply (f_equal env_kucoin) in H. discriminate H.
Qed.

End SpawnFailure.

Ltac same_procs_tac := unfold same_procs; repeat split.

Lemma prepare_alt_folder_fs c n h : exists f, prepare_alt_folder c n h = set_fsys f h.
Proof.
  unfold prepare_alt_folder. destruct (String.eqb c "BTC").
  - exists (fsys h). destruct h; reflexivity.
  - eexists. reflexivity.
Qed.

Lemma start_process_spawn_fails w h : spawn_fails (os h) = true ->
  _start_process w h = h \/ exists t, _start_process w h = emit (EError t) h.
Proof.
  intros F. unfold _start_process.
  destruct (is_running h (proc (get_pi w h))); [auto|].
  destruct (negb (isfile (fsys h) (ppath (get_pi w h)))); [eauto|].
  rewrite F. eauto.
Qed.

(** C10 (amended): when [Popen] raises, no handle, pid, start time or
    registry entry is recorded and the failure is reported in an error
    dialog ("Failed to start") whenever [Popen] was reached, with no
    exception escaping; what ran before the spawn is kept: [start_neural]'s
    readiness reset and [USE_KUCOIN_API], and the alt-coin folder and
    script copy ([prepare_alt_folder]) of the per-coin starts. [Popen] is
    reached when the coin is not empty, the script resolves, and no
    runner of the coin is registered (no trainer of the coin is running). *)
Theorem spawn_failure_records_nothing (h : hub) :
  spawn_fails (os h) = true ->
  (forall w, is_running h (proc (get_pi w h)) = false ->
     isfile (fsys h) (ppath (get_pi w h)) = true ->
     _start_process w h = emit (EError "Failed to start") h) /\
  (forall w, same_procs h (_start_process w h) /\ fsys (_start_process w h) = fsys h /\
     log_err h (_start_process w h)) /\
  start_neural h
    = _start_process WNeural
        (set_env_kucoin (Some (if use_kucoin_api (cfg h) then "1" else "0"))
           (write_ready false "starting" h)) /\
  (forall c, let coin := norm_coin c in let name := script_neural_runner2 (cfg h) in
     let hp := prepare_alt_folder coin name h in
     coin <> "" ->
     isfile (fsys hp) (join (coin_cwd h coin) name) || isfile (fsys hp) (join (project_dir (cfg h)) name) = true ->
     dict_get (neural_runners h) coin = None ->
     start_neural_for_coin c h = Ok (emit (EError "Failed to start") hp)) /\
  (forall c, let coin := norm_coin c in let name := script_neural_trainer (cfg h) in
     let hp := prepare_alt_folder coin name h in
     coin <> "" ->
     isfile (fsys hp) (join (coin_cwd h coin) name) || isfile (fsys hp) (proc_trainer_path (cfg h))
       || isfile (fsys hp) (join (project_dir (cfg h)) name) = true ->
     lp_running h (trainers h) coin = false ->
     _start_single_trainer c h = emit (EError "Failed to start") hp).
Proof.
  intros F. split; [|split; [|split; [reflexivity|split]]].
  - intros w R I. unfold _start_process. rewrite R, I, F. reflexivity.
  - intros w. destruct (start_process_spawn_fails w h F) as [E|[t E]]; rewrite E.
    + split; [same_procs_tac|split; [reflexivity|left; reflexivity]].
    + split; [same_procs_tac|split; [reflexivity|right; exists t; reflexivity]].
  - intros c. cbv zeta. intros Hne Hr Hd. unfold start_neural_for_coin.
    destruct (String.eqb (norm_coin c) "") eqn:E; [apply String.eqb_eq in E; contradiction|].
    destruct (prepare_alt_folder_fs (norm_coin c) (script_neural_runner2 (cfg h)) h) as [f Ef].
    rewrite Ef in Hr |- *. cbv zeta.
    change (cfg (set_fsys f h)) with (cfg h).
    change (neural_runners (set_fsys f h)) with (neural_runners h). rewrite Hd.
    change (spawn_fails (os (set_fsys f h))) with (spawn_fails (os h)). rewrite F.
    destruct (isfile _ (join (coin_cwd h (norm_coin c)) _)) eqn:A; [reflexivity|].
    destruct (isfile _ (join (project_dir (cfg h)) _)) eqn:B; [reflexivity|].
    revert Hr. rewrite ?A, ?B. discriminate.
  - intros c. cbv zeta. intros Hne Hr R. unfold _start_single_trainer.
    destruct (String.eqb (norm_coin c) "") eqn:E; [apply String.eqb_eq in E; contradiction|].
    destruct (prepare_alt_folder_fs (norm_coin c) (script_neural_trainer (cfg h)) h) as [f Ef].
    rewrite Ef in Hr |- *. cbv zeta.
    change (cfg (set_fsys f h)) with (cfg h).
    change (trainers (set_fsys f h)) with (trainers h).
    change (lp_running (set_fsys f h)) with (lp_running h). rewrite R.
    change (spawn_fails (os (set_fsys f h))) with (spawn_fails (os h)). rewrite F.
    destruct (isfile _ (join (coin_cwd h (norm_coin c)) _)) eqn:A; [reflexivity|].
    destruct (isfile _ (proc_trainer_path (cfg h))) eqn:B; cbn iota; [rewrite B; reflexivity|].
    destruct (isfile _ (join (project_dir (cfg h)) _)) eqn:C; [reflexivity|].
    revert Hr. rewrite ?A, ?B, ?C. discriminate.
Qed.

(** ** Witnesses *)

Section Witnesses.
Import Session StateStore.

Lemma poll_times_out_witness :
  poll_waiting ["BTC"] 0 (run poll_start (hub0 fs0)) /\
  (forall n, (n < 21 - 0)%nat ->
     poll_waiting ["BTC"] (0 + n) (run (repeat EvFire n) (run poll_start (hub0 fs0)))) /\
  exists h',
    run (repeat EvFire (21 - 0)) (run poll_start (hub0 fs0))
      = fst (_poll_runner_ready_then_start_trader_for_coins ["BTC"] h') /\
    snd (_poll_runner_ready_then_start_trader_for_coins ["BTC"] h') = GTimedOut /\
    run (repeat EvFire (21 - 0)) (run poll_start (hub0 fs0))
      = start_traders ["BTC"] (set_pending false (set_poll_count 21 h')) /\
    after_q (run (repeat EvFire (21 - 0)) (run poll_start (hub0 fs0))) = [] /\
    auto_start_trader_pending (run (repeat EvFire (21 - 0)) (run poll_start (hub0 fs0))) = false.
Proof.
  assert (Hw : poll_waiting ["BTC"] 0 (run poll_start (hub0 fs0))).
  { unfold poll_waiting. vm_compute. repeat split. eexists. reflexivity. }
  split; [exact Hw|].
  apply (poll_times_out_after_bounded_attempts ["BTC"] 0 (run poll_start (hub0 fs0)));
    [exact Hw|lia].
Defined.

Lemma cached_mtime_contract_witness :
  fv_signal signal_path = Some (100%Z, "7") /\
  dict_get [(signal_path, (100%Z, 5%Z))] signal_path = Some (100%Z, 5%Z) /\
  _cached fv_signal [(signal_path, (100%Z, 5%Z))] signal_path read_int_from_file 0%Z
    = ((5%Z, Some 100%Z), [(signal_path, (100%Z, 5%Z))], false).
Proof.
  split; [reflexivity|split; [reflexivity|]].
  apply (proj1 (proj2 (cached_mtime_contract fv_signal [(signal_path, (100%Z, 5%Z))]
                         signal_path read_int_from_file 0%Z)) 100%Z "7" 5%Z);
    reflexivity.
Defined.

Lemma all_trained_iff_witness :
  all_trained (hub0 fs_stopped) = true /\
  coins (cfg (hub0 fs_stopped)) <> [] /\
  forallb (coin_trained_amended (hub0 fs_stopped)) (coins (cfg (hub0 fs_stopped))) = true.
Proof.
  assert (H : all_trained (hub0 fs_stopped) = true) by (vm_compute; reflexivity).
  split; [exact H|]. apply (all_trained_iff (hub0 fs_stopped)). exact H.
Defined.

Lemma spawn_failure_records_nothing_witness :
  spawn_fails (os (hub_spawn_fails fs0)) = true /\
  _start_process WTrader (hub_spawn_fails fs0) = emit (EError "Failed to start") (hub_spawn_fails fs0) /\
  start_neural_for_coin "btc" (hub_spawn_fails fs0)
    = Ok (emit (EError "Failed to start") (hub_spawn_fails fs0)) /\
  _start_single_trainer "eth" (hub_spawn_fails fs0)
    = emit (EError "Failed to start") (prepare_alt_folder "ETH" "pt_trainer.py" (hub_spawn_fails fs0)).
Proof.
  destruct (spawn_failure_records_nothing (hub_spawn_fails fs0) eq_refl) as [A [_ [_ [D E]]]].
  split; [reflexivity|split; [apply A; reflexivity|split]].
  - exact (D "btc" ltac:(discriminate) eq_refl eq_refl).
  - exact (E "eth" ltac:(discriminate) eq_refl eq_refl).
Defined.

End Witnesses.

(** * Further properties of the code *)

(** ** Process supervision *)

(** [_start_process] on a stopped role whose script exists and whose
    [Popen] succeeds: the role gets the new pid, running, with its launch
    time, and the spawn is logged; no timer is touched. *)
Theorem start_process_spawns (w : which) (h : hub) :
  is_running h (proc (get_pi w h)) = false ->
  isfile (fsys h) (ppath (get_pi w h)) = true ->
  spawn_fails (os h) = false ->
  let h' := _start_process w h in
  proc (get_pi w h') = Some (next_pid (os h)) /\
  is_running h' (proc (get_pi w h')) = true /\
  start_time (get_pi w h') = Some (now_s (os h)) /\
  ppath (get_pi w h') = ppath (get_pi w h) /\
  hlog h' = hlog h ++ [ESpawn (role_of w) (next_pid (os h)) (ppath (get_pi w h))] /\
  after_q h' = after_q h.
Proof.
  intros R I F. unfold _start_process. rewrite R, I, F. cbn zeta iota.
  destruct w; cbn; rewrite Nat.eqb_refl; repeat split.
Qed.

Lemma running_after_exit o pid : running (os_exit o pid) (Some pid) = false.
Proof.
  unfold running, os_exit. simpl. induction (alive o) as [|q r IH]; [reflexivity|].
  simpl. destruct (Nat.eqb q pid) eqn:E; simpl; [exact IH|].
  rewrite Nat.eqb_sym, E. exact IH.
Qed.

(** [_stop_process] on a running role only requests termination: the pid
    stays in the process table and in the handle, the launch time is
    cleared, a start issued before the exit does nothing, and once the
    process exits the role is no longer running. *)
Theorem stop_process_fire_and_forget (w : which) (h : hub) (pid : nat) :
  proc (get_pi w h) = Some pid -> is_running h (Some pid) = true ->
  let h' := _stop_process w h in
  hlog h' = hlog h ++ [ETerminate (role_of w) pid] /\
  os h' = os h /\
  proc (get_pi w h') = Some pid /\
  start_time (get_pi w h') = None /\
  _start_process w h' = h' /\
  is_running (step (EvExit pid) h') (proc (get_pi w (step (EvExit pid) h'))) = false.
Proof.
  intros P R. unfold _stop_process. rewrite P, R.
  assert (Hr : is_running (set_pi w (mkProcInfo (pname (get_pi w h)) (ppath (get_pi w h)) (Some pid) None)
                             (emit (ETerminate (role_of w) pid) h)) (Some pid) = true)
    by (destruct w; exact R).
  destruct w; (split; [reflexivity|]); (split; [reflexivity|]); (split; [reflexivity|]);
    (split; [reflexivity|]); (split; [apply start_process_running_noop; exact Hr|]);
    apply running_after_exit.
Qed.

(** ** The flow gate of [_tick] *)

Lemma tick_tick (h : hub) : _tick (_tick h) = _tick h.
Proof.
  unfold _tick at 2 3. destruct (all_trained h && auto_start_runner_after_training h) eqn:E.
  - unfold _tick.
    set (h1 := after 5 CStartNeuralThenTrader (set_pending true (set_after_training false h))).
    assert (F : auto_start_runner_after_training h1 = false) by reflexivity.
    rewrite F, andb_false_r. reflexivity.
  - unfold _tick. rewrite E. reflexivity.
Qed.

(** Any number of ticks in a row act as one: the Start All sequence is
    scheduled at most once per Start All. *)
Theorem tick_idempotent (h : hub) (n : nat) : run (repeat EvTick (S n)) h = _tick h.
Proof.
  change (run (repeat EvTick n) (_tick h) = _tick h).
  revert h. induction n as [|n IH]; intros h; [reflexivity|].
  change (run (repeat EvTick n) (_tick (_tick h)) = _tick h).
  rewrite tick_tick. apply IH.
Qed.

(** ** Readiness polls *)

(** One firing of the fleet poll either waits (pending flag still set,
    counter one higher and at most 20, the same callback rescheduled
    250 ms later, nothing logged) or ends the chain (pending flag clear,
    no timer added). *)
Theorem fleet_poll_reschedules_or_ends (cs : list string) (h : hub) :
  let r := _poll_runner_ready_then_start_trader_for_coins cs h in
  (snd r = GAgain /\ auto_start_trader_pending (fst r) = true /\
   trader_poll_count (fst r) = S (trader_poll_count h) /\ (trader_poll_count (fst r) <= 20)%nat /\
   after_q (fst r) = insert_timer ((clock_ms (os h) + 250)%Z, CPollCoins cs) (after_q h) /\
   hlog (fst r) = hlog h) \/
  (snd r <> GAgain /\ auto_start_trader_pending (fst r) = false /\ after_q (fst r) = after_q h).
Proof.
  unfold _poll_runner_ready_then_start_trader_for_coins.
  destruct (auto_start_trader_pending h) eqn:P; cbn [negb].
  - destruct (is_running h (proc (proc_neural h))); cbn [negb].
    + destruct (_read_runner_ready h).
      * right. cbn [fst snd]. rewrite start_traders_pending, start_traders_after_q.
        split; [discriminate|split; reflexivity].
      * destruct (20 <? trader_poll_count (set_poll_count (S (trader_poll_count h)) h))%nat eqn:L.
        -- right. cbn [fst snd]. rewrite start_traders_pending, start_traders_after_q.
           split; [discriminate|split; reflexivity].
        -- left. cbn [fst snd]. apply Nat.ltb_ge in L.
           repeat split; [exact P|exact L].
    + right. split; [discriminate|split; reflexivity].
  - right. split; [discriminate|split; [exact P|reflexivity]].
Qed.

(** The single-trader poll never touches a trader that is running: in
    every outcome the process handles and registries stay as they are. *)
Theorem single_poll_keeps_running_trader (h : hub) :
  is_running h (proc (proc_trader h)) = true ->
  same_procs h (fst (_poll_runner_ready_then_start_trader h)).
Proof.
  intros R. unfold _poll_runner_ready_then_start_trader.
  destruct (negb (auto_start_trader_pending h)); [same_procs_tac|].
  destruct (negb (is_running h (proc (proc_neural h)))); [same_procs_tac|].
  destruct (_read_runner_ready h).
  - assert (R1 : is_running (set_pending false h) (proc (proc_trader (set_pending false h))) = true)
      by exact R.
    rewrite R1. same_procs_tac.
  - set (h1 := set_poll_count (S (trader_poll_count h)) h).
    destruct (20 <? trader_poll_count h1)%nat; [|same_procs_tac].
    assert (R1 : is_running (set_pending false h1) (proc (proc_trader (set_pending false h1))) = true)
      by exact R.
    cbn [fst]. rewrite R1. same_procs_tac.
Qed.

(** ** Worker output *)

Lemma strip_prefix_app (p s : string) : strip_prefix p (p ++ s) = Some s.
Proof.
  induction p as [|a p IH]; [reflexivity|]. simpl. rewrite Ascii.eqb_refl. exact IH.
Qed.

(** [_reader_thread] queues one prefixed, right-stripped line per line of
    output up to end of file, nothing read after it, and the exit marker
    last. *)
Theorem reader_thread_queue (prefix : string) (pre post : list string) :
  ~ In "" pre ->
  _reader_thread prefix (pre ++ "" :: post)
    = map (fun l => (prefix ++ rstrip l)%string) pre ++ [(prefix ++ "[process exited]")%string] /\
  Forall (fun q => strip_prefix prefix q <> None) (_reader_thread prefix (pre ++ "" :: post)).
Proof.
  intros Hn.
  assert (E : reader_lines prefix (pre ++ "" :: post) = map (fun l => (prefix ++ rstrip l)%string) pre).
  { induction pre as [|l r IH]; [reflexivity|]. simpl.
    destruct (String.eqb l "") eqn:El.
    - apply String.eqb_eq in El. subst l. exfalso. apply Hn. left. reflexivity.
    - rewrite IH; [reflexivity|]. intros Hi. apply Hn. right. exact Hi. }
  unfold _reader_thread. rewrite E. split; [reflexivity|].
  apply Forall_app. split.
  - apply Forall_forall. intros q Hq. apply in_map_iff in Hq. destruct Hq as [l [Hl _]].
    subst q. rewrite strip_prefix_app. discriminate.
  - constructor; [rewrite strip_prefix_app; discriminate|constructor].
Qed.

(** ** Dictionaries *)

Lemma dict_get_set_other {V} (d : list (string * V)) k k' v :
  k' <> k -> dict_get (dict_set d k v) k' = dict_get d k'.
Proof.
  intros Hne. induction d as [|[a b] r IH]; simpl.
  - destruct (String.eqb k' k) eqn:E; [apply String.eqb_eq in E; contradiction|reflexivity].
  - destruct (String.eqb k a) eqn:E.
    + apply String.eqb_eq in E. subst a. simpl.
      destruct (String.eqb k' k) eqn:E2; [apply String.eqb_eq in E2; contradiction|reflexivity].
    + simpl. destruct (String.eqb k' a); [reflexivity|exact IH].
Qed.


Lemma dict_get_in {V} (d : list (string * V)) k v : dict_get d k = Some v -> In (k, v) d.
Proof.
  induction d as [|[a b] r IH]; simpl; [discriminate|].
  destruct (String.eqb k a) eqn:E.
  - apply String.eqb_eq in E. subst a. intros H. injection H as <-. left. reflexivity.
  - intros H. right. exact (IH H).
Qed.

Lemma dict_get_set_some {V} (d : list (string * V)) k k' v :
  dict_get d k' <> None -> dict_get (dict_set d k v) k' <> None.
Proof.
  intros H. destruct (String.eqb k' k) eqn:E.
  - apply String.eqb_eq in E. subst k'. rewrite dict_get_set_same. discriminate.
  - rewrite dict_get_set_other; [exact H|]. intros Hk. subst k'. rewrite String.eqb_refl in E. discriminate.
Qed.

Lemma existsb_eqb_In (x : string) (l : list string) : existsb (String.eqb x) l = true <-> In x l.
Proof.
  rewrite existsb_exists. split.
  - intros [y [Hy E]]. apply String.eqb_eq in E. subst y. exact Hy.
  - intros Hx. exists x. split; [exact Hx|apply String.eqb_refl].
Qed.

(** ** Coin folders *)




(** ** Trainers seen as running *)

Lemma dedupe_coins_spec (seen l : list string) :
  NoDup (dedupe_coins seen l) /\
  (forall x, In x (dedupe_coins seen l) -> ~ In x seen /\ x <> "") /\
  (forall c, In c l -> norm_coin c <> "" -> In (norm_coin c) seen \/ In (norm_coin c) (dedupe_coins seen l)).
Proof.
  revert seen. induction l as [|c r IH]; intros seen; simpl.
  - split; [constructor|split; [intros _ []|intros _ []]].
  - destruct (negb (String.eqb (norm_coin c) "") && negb (existsb (String.eqb (norm_coin c)) seen)) eqn:E.
    + apply andb_prop in E. destruct E as [E1 E2]. apply negb_true_iff in E1, E2.
      destruct (IH (norm_coin c :: seen)) as [N [X C]]. split; [|split].
      * constructor; [|exact N]. intros Hin. destruct (X _ Hin) as [Hn _]. apply Hn. left. reflexivity.
      * intros x [<-|Hx].
        -- split.
           ++ intros Hin. apply existsb_eqb_In in Hin. rewrite Hin in E2. discriminate.
           ++ intros Hs. rewrite Hs in E1. discriminate.
        -- destruct (X _ Hx) as [Hn Hne]. split; [intros Hs; apply Hn; right; exact Hs|exact Hne].
      * intros c' [<-|Hc] Hne; [right; left; reflexivity|].
        destruct (C c' Hc Hne) as [[Hs|Hs]|Hs].
        -- right. left. exact Hs.
        -- left. exact Hs.
        -- right. right. exact Hs.
    + destruct (IH seen) as [N [X C]]. split; [exact N|split; [exact X|]].
      intros c' [<-|Hc] Hne; [|exact (C c' Hc Hne)].
      left. apply andb_false_iff in E. destruct E as [E|E].
      * apply negb_false_iff, String.eqb_eq in E. contradiction.
      * apply negb_false_iff, existsb_eqb_In in E. exact E.
Qed.

(** [_running_trainers] lists each coin once, never the empty name, and
    includes every trainer this hub launched that is still running. *)
Theorem running_trainers_dedup (getmtime : string -> Z) (h : hub) :
  let r := _running_trainers getmtime h in
  NoDup r /\ ~ In "" r /\
  (forall c lp, In (c, lp) (trainers h) -> is_running h (proc (info lp)) = true ->
     norm_coin c <> "" -> In (norm_coin c) r).
Proof.
  unfold _running_trainers. cbv zeta.
  match goal with |- context [dedupe_coins [] ?l] => destruct (dedupe_coins_spec [] l) as [N [X C]] end.
  split; [exact N|split].
  - intros Hin. destruct (X _ Hin) as [_ H]. apply H. reflexivity.
  - intros c lp Hin R Hne. destruct (C c) as [[]|H]; [|exact Hne|exact H].
    apply in_or_app. left. apply in_map_iff. exists (c, lp). split; [reflexivity|].
    apply filter_In. split; assumption.
Qed.

Lemma dict_get_fold_set (f : string -> string) (l : list string) m k :
  dict_get (fold_left (fun out c => dict_set out c (f c)) l m) k
    = if existsb (String.eqb k) l then Some (f k) else dict_get m k.
Proof.
  revert m. induction l as [|c r IH]; intros m; [reflexivity|]. cbn [fold_left existsb].
  rewrite IH. destruct (existsb (String.eqb k) r); [rewrite orb_true_r; reflexivity|].
  rewrite orb_false_r. destruct (String.eqb k c) eqn:E.
  - apply String.eqb_eq in E. subst c. apply dict_get_set_same.
  - apply dict_get_set_other. intros Hk. subst c. rewrite String.eqb_refl in E. discriminate.
Qed.

(** In the three-valued [_training_status_map], a managed coin (with its
    name written upper-case, without spaces) whose trainer this hub
    launched and which still runs shows TRAINED or TRAINING, never
    NOT TRAINED. *)
Theorem status_map_shows_running_trainer (getmtime : string -> Z) (h : hub) (c : string) (lp : logproc) :
  In c (coins (cfg h)) -> norm_coin c = c -> c <> "" ->
  dict_get (trainers h) c = Some lp -> is_running h (proc (info lp)) = true ->
  dict_get (_training_status_map_full getmtime h) c = Some "TRAINED" \/
  dict_get (_training_status_map_full getmtime h) c = Some "TRAINING".
Proof.
  intros Hc Hn Hne Hg R. unfold _training_status_map_full. cbv zeta.
  pose proof (dict_get_fold_set (fun c => if _coin_is_trained h c then "TRAINED"
                    else if existsb (String.eqb c) (_running_trainers getmtime h) then "TRAINING"
                    else "NOT TRAINED") (coins (cfg h)) [] c) as E.
  cbn beta in E. rewrite E. apply existsb_eqb_In in Hc. rewrite Hc.
  destruct (_coin_is_trained h c); [left; reflexivity|right].
  destruct (running_trainers_dedup getmtime h) as [_ [_ Hr]].
  assert (Hi : In c (_running_trainers getmtime h)).
  { rewrite <- Hn at 1. apply (Hr c lp); [apply dict_get_in; exact Hg|exact R|rewrite Hn; exact Hne]. }
  apply existsb_eqb_In in Hi. rewrite Hi. reflexivity.
Qed.

(** ** Stopping trainers *)

Lemma read_status_write_status (f : fs) (q : string) (s : option string) (p : string) :
  read_status (fs_write f q (CStatus s)) p = if String.eqb p q then s else read_status f p.
Proof.
  unfold read_status, fs_write. simpl. destruct (String.eqb p q) eqn:E.
  - apply String.eqb_eq in E. subst q. rewrite dict_get_set_same. reflexivity.
  - rewrite dict_get_set_other; [reflexivity|]. intros Hq. subst q.
    rewrite String.eqb_refl in E. discriminate.
Qed.

Lemma same_procs_trans h1 h2 h3 : same_procs h1 h2 -> same_procs h2 h3 -> same_procs h1 h3.
Proof. unfold same_procs. intuition congruence. Qed.

Lemma stop_entry_frame h e :
  same_procs h (stop_trainer_entry h e) /\ cfg (stop_trainer_entry h e) = cfg h /\
  after_q (stop_trainer_entry h e) = after_q h /\
  auto_start_runner_after_training (stop_trainer_entry h e) = auto_start_runner_after_training h /\
  (forall x, In x (hlog h) -> In x (hlog (stop_trainer_entry h e))) /\
  (forall p, read_status (fsys h) p = Some "STOPPED" ->
     read_status (fsys (stop_trainer_entry h e)) p = Some "STOPPED").
Proof.
  destruct e as [coin lp]. unfold stop_trainer_entry.
  destruct (proc (info lp)) as [pid|]; [|split; [same_procs_tac|repeat split; auto]].
  destruct (is_running h (Some pid)); [|split; [same_procs_tac|repeat split; auto]].
  split; [same_procs_tac|]. do 3 (split; [reflexivity|]). split.
  - intros x Hx. simpl. rewrite !in_app_iff. auto.
  - intros p Hp. simpl fsys. rewrite read_status_write_status.
    destruct (String.eqb p _); [reflexivity|exact Hp].
Qed.

Lemma fold_stop_entries l h :
  let h' := fold_left stop_trainer_entry l h in
  same_procs h h' /\ cfg h' = cfg h /\ after_q h' = after_q h /\
  auto_start_runner_after_training h' = auto_start_runner_after_training h /\
  (forall x, In x (hlog h) -> In x (hlog h')) /\
  (forall p, read_status (fsys h) p = Some "STOPPED" -> read_status (fsys h') p = Some "STOPPED") /\
  (forall coin lp pid, In (coin, lp) l -> proc (info lp) = Some pid -> is_running h (Some pid) = true ->
     In (ETerminate (RTrainer coin) pid) (hlog h') /\
     read_status (fsys h') (status_path h coin) = Some "STOPPED").
Proof.
  revert h. induction l as [|e r IH]; intros h; cbn [fold_left].
  - split; [same_procs_tac|]. do 3 (split; [reflexivity|]). split; [auto|]. split; [auto|].
    intros ? ? ? [].
  - destruct (stop_entry_frame h e) as [S1 [C1 [Q1 [A1 [L1 P1]]]]].
    destruct (IH (stop_trainer_entry h e)) as [S2 [C2 [Q2 [A2 [L2 [P2 T2]]]]]].
    split; [exact (same_procs_trans _ _ _ S1 S2)|].
    split; [congruence|]. split; [congruence|]. split; [congruence|].
    split; [auto|]. split; [auto|].
    intros coin lp pid [He|Hr] Hp R.
    + subst e.
      assert (Hx : In (ETerminate (RTrainer coin) pid) (hlog (stop_trainer_entry h (coin, lp))) /\
                   read_status (fsys (stop_trainer_entry h (coin, lp))) (status_path h coin) = Some "STOPPED").
      { unfold stop_trainer_entry. rewrite Hp, R. split.
        - simpl. rewrite !in_app_iff. simpl. auto.
        - simpl fsys. rewrite read_status_write_status.
          change (status_path (emit (ETerminate (RTrainer coin) pid) h) coin) with (status_path h coin).
          rewrite String.eqb_refl. reflexivity. }
      destruct Hx as [Hx1 Hx2]. split; [exact (L2 _ Hx1)|exact (P2 _ Hx2)].
    + destruct S1 as [O1 _].
      assert (R' : is_running (stop_trainer_entry h e) (Some pid) = true)
        by (unfold is_running; rewrite O1; exact R).
      destruct (T2 coin lp pid Hr Hp R') as [T P]. split; [exact T|].
      assert (Es : status_path (stop_trainer_entry h e) coin = status_path h coin)
        by (unfold status_path, coin_cwd; rewrite C1; reflexivity).
      rewrite Es in P. exact P.
Qed.

(** [stop_trainer_for_selected_coin] on a running trainer: one
    termination request for that pid and a STOPPED status file in the
    coin's folder; the process stays in the table until it exits and no
    other process or registry changes. *)
Theorem stop_selected_trainer (coin0 : string) (h : hub) (lp : logproc) (pid : nat) :
  dict_get (trainers h) (norm_coin coin0) = Some lp -> proc (info lp) = Some pid ->
  is_running h (Some pid) = true ->
  let h' := stop_trainer_for_selected_coin coin0 h in
  hlog h' = hlog h ++ [ETerminate (RTrainer (norm_coin coin0)) pid;
                       EWriteStatus (norm_coin coin0) "STOPPED"] /\
  read_status (fsys h') (status_path h (norm_coin coin0)) = Some "STOPPED" /\
  same_procs h h' /\ is_running h' (Some pid) = true.
Proof.
  intros Hg Hp R. unfold stop_trainer_for_selected_coin. cbv zeta. rewrite Hg.
  unfold stop_trainer_entry. rewrite Hp, R. split; [|split; [|split]].
  - simpl. rewrite <- app_assoc. reflexivity.
  - simpl fsys. rewrite read_status_write_status.
    change (status_path (emit (ETerminate (RTrainer (norm_coin coin0)) pid) h) (norm_coin coin0))
      with (status_path h (norm_coin coin0)).
    rewrite String.eqb_refl. reflexivity.
  - same_procs_tac.
  - exact R.
Qed.

(** [stop_all_trainers]: every trainer of the registry that is running
    gets its termination request and a STOPPED status file; the log gains
    nothing else, and no process leaves the table before it exits. *)
Theorem stop_all_trainers_stops_each (h : hub) :
  let h' := stop_all_trainers h in
  same_procs h h' /\
  (exists t, hlog h' = hlog h ++ t /\ Forall trainer_stop_step t) /\
  (forall coin lp pid, In (coin, lp) (trainers h) -> proc (info lp) = Some pid ->
     is_running h (Some pid) = true ->
     In (ETerminate (RTrainer coin) pid) (hlog h') /\
     read_status (fsys h') (status_path h coin) = Some "STOPPED").
Proof.
  unfold stop_all_trainers. cbv zeta.
  destruct (fold_stop_entries (trainers h) h) as [S [_ [_ [_ [_ [_ T]]]]]].
  split; [exact S|split; [apply fold_stop_trainers_log|exact T]].
Qed.

(** ** Stop All leaves the per-coin runners alone *)

Lemma stop_process_frame w h :
  os (_stop_process w h) = os h /\ neural_runners (_stop_process w h) = neural_runners h /\
  trainers (_stop_process w h) = trainers h /\ after_q (_stop_process w h) = after_q h /\
  auto_start_runner_after_training (_stop_process w h) = auto_start_runner_after_training h /\
  (forall c pid, In (ETerminate (RRunner c) pid) (hlog (_stop_process w h)) ->
     In (ETerminate (RRunner c) pid) (hlog h)).
Proof.
  split; [|split; [|split; [|split; [|split]]]];
    try (unfold _stop_process; destruct (proc (get_pi w h)) as [pid|]; [|reflexivity];
         destruct (is_running h (Some pid)); [|reflexivity]; destruct w; reflexivity).
  intros c pid Hin. destruct (stop_process_log w h) as [E|[pid' E]]; rewrite E in Hin; [exact Hin|].
  apply in_app_iff in Hin. destruct Hin as [Hin|[Hin|[]]]; [exact Hin|].
  destruct w; discriminate.
Qed.

(** Stop All does not stop the runners started per coin by the Start All
    sequence, keeps the "start runner after training" flag and every
    pending timer, and only requests terminations: every process stays in
    the table until it exits. *)
Theorem stop_all_keeps_runners_and_flag (h : hub) :
  let h' := stop_all_scripts h in
  os h' = os h /\ neural_runners h' = neural_runners h /\ trainers h' = trainers h /\
  auto_start_runner_after_training h' = auto_start_runner_after_training h /\
  after_q h' = after_q h /\
  (forall c pid, In (ETerminate (RRunner c) pid) (hlog h') -> In (ETerminate (RRunner c) pid) (hlog h)).
Proof.
  unfold stop_all_scripts, write_ready, stop_trainers, stop_neural, stop_trader. cbv zeta.
  cbn [os emit set_fsys neural_runners trainers after_q auto_start_runner_after_training hlog].
  match goal with |- context [fold_left stop_trainer_entry ?l ?x] =>
    destruct (fold_stop_entries l x) as [[O4 [_ [_ [N4 T4]]]] [_ [Q4 [A4 _]]]];
    destruct (fold_stop_trainers_log l x) as [t3 [L4 F4]] end.
  rewrite O4, N4, T4, Q4, A4, L4.
  destruct (stop_process_frame WNeural (_stop_process WTrader (set_pending false h)))
    as [O3 [N3 [T3 [Q3 [A3 L3]]]]].
  destruct (stop_process_frame WTrader (set_pending false h)) as [O2 [N2 [T2 [Q2 [A2 L2]]]]].
  rewrite O3, N3, T3, Q3, A3, O2, N2, T2, Q2, A2.
  repeat (split; [reflexivity|]).
  intros c pid Hin. rewrite !in_app_iff in Hin.
  destruct Hin as [[Hin|Hin]|[Hin|[]]]; [|rewrite Forall_forall in F4; destruct (F4 _ Hin) as [coin [[p E]|E]]; discriminate|discriminate].
  apply L3, L2 in Hin. apply in_app_iff in Hin. destruct Hin as [Hin|[Hin|[]]]; [exact Hin|discriminate].
Qed.

(** ** Launching trainers *)

Lemma start_single_trainer_frame (c : string) (h : hub) :
  let h' := _start_single_trainer c h in
  cfg h' = cfg h /\ proc_neural h' = proc_neural h /\ proc_trader h' = proc_trader h /\
  neural_runners h' = neural_runners h /\ after_q h' = after_q h /\
  auto_start_runner_after_training h' = auto_start_runner_after_training h /\
  auto_start_trader_pending h' = auto_start_trader_pending h /\
  exists t, hlog h' = hlog h ++ t /\ Forall trainer_launch_step t.
Proof.
  unfold _start_single_trainer.
  destruct (String.eqb (norm_coin c) "").
  { repeat (split; [reflexivity|]). exists []. rewrite app_nil_r. split; [reflexivity|constructor]. }
  destruct (prepare_alt_folder_fs (norm_coin c) (script_neural_trainer (cfg h)) h) as [f Ef].
  rewrite Ef. cbv zeta.
  match goal with |- context [match ?x with Some _ => _ | None => _ end] => destruct x as [path|] end.
  - destruct (lp_running _ _ _).
    + repeat (split; [reflexivity|]). exists []. rewrite app_nil_r. split; [reflexivity|constructor].
    + simpl spawn_fails. destruct (spawn_fails (os h)).
      * repeat (split; [reflexivity|]). exists [EError "Failed to start"].
        split; [reflexivity|]. constructor; [right; right; eexists; reflexivity|constructor].
      * repeat (split; [reflexivity|]).
        exists [ESpawn (RTrainer (norm_coin c)) (next_pid (os h)) path;
                EWriteStatus (norm_coin c) "TRAINING"].
        split.
        -- transitivity ((hlog h ++ [ESpawn (RTrainer (norm_coin c)) (next_pid (os h)) path]) ++
                          [EWriteStatus (norm_coin c) "TRAINING"]); [reflexivity|].
           rewrite <- app_assoc. reflexivity.
        -- constructor; [left; do 3 eexists; reflexivity|].
           constructor; [right; left; eexists; reflexivity|constructor].
  - repeat (split; [reflexivity|]). exists [EError "Missing trainer"].
    split; [reflexivity|]. constructor; [right; right; eexists; reflexivity|constructor].
Qed.

Lemma fold_trainers_frame (l : list string) (h : hub) :
  let h' := fold_left (fun h c => _start_single_trainer c h) l h in
  cfg h' = cfg h /\ proc_neural h' = proc_neural h /\ proc_trader h' = proc_trader h /\
  neural_runners h' = neural_runners h /\ after_q h' = after_q h /\
  auto_start_runner_after_training h' = auto_start_runner_after_training h /\
  auto_start_trader_pending h' = auto_start_trader_pending h /\
  exists t, hlog h' = hlog h ++ t /\ Forall trainer_launch_step t.
Proof.
  revert h. induction l as [|c r IH]; intros h; cbn [fold_left].
  - repeat (split; [reflexivity|]). exists []. rewrite app_nil_r. split; [reflexivity|constructor].
  - destruct (start_single_trainer_frame c h) as [C1 [N1 [T1 [R1 [Q1 [A1 [P1 [t1 [L1 F1]]]]]]]]].
    destruct (IH (_start_single_trainer c h)) as [C2 [N2 [T2 [R2 [Q2 [A2 [P2 [t2 [L2 F2]]]]]]]]].
    repeat (split; [congruence|]). exists (t1 ++ t2). split.
    + rewrite L2, L1, app_assoc. reflexivity.
    + apply Forall_app. split; assumption.
Qed.

Lemma stop_neural_frame (h : hub) :
  let h' := stop_neural h in
  cfg h' = cfg h /\ proc (proc_neural h') = proc (proc_neural h) /\ proc_trader h' = proc_trader h /\
  neural_runners h' = neural_runners h /\ after_q h' = after_q h /\
  auto_start_runner_after_training h' = auto_start_runner_after_training h /\
  auto_start_trader_pending h' = auto_start_trader_pending h /\
  exists t0, hlog h' = hlog h ++ t0 /\ Forall neural_stop t0.
Proof.
  unfold stop_neural. cbv zeta.
  assert (L : exists t0, hlog (_stop_process WNeural h) = hlog h ++ t0 /\ Forall neural_stop t0).
  { destruct (stop_process_log WNeural h) as [E|[pid E]]; rewrite E.
    - exists []. split; [rewrite app_nil_r; reflexivity|constructor].
    - exists [ETerminate RNeural pid]. split; [reflexivity|constructor; [exists pid; reflexivity|constructor]]. }
  revert L. change (proc (proc_neural h)) with (proc (get_pi WNeural h)). unfold _stop_process.
  destruct (proc (get_pi WNeural h)) as [pid|] eqn:P; [destruct (is_running h (Some pid))|];
    intros L; (repeat (split; [first [reflexivity|exact P]|])); exact L.
Qed.

(** Start All launches training only: the log gains at most the neural
    runner's termination request, then trainer spawns, their TRAINING
    status files and error dialogs; no timer is set, the trader and the
    per-coin runners are untouched, and the "start runner after
    training" flag is set for [_tick]. *)
Theorem start_all_launches_training_only (h : hub) :
  let h' := start_all_scripts h in
  (exists t0 t, hlog h' = hlog h ++ t0 ++ t /\ Forall neural_stop t0 /\ Forall trainer_launch_step t) /\
  auto_start_runner_after_training h' = true /\
  auto_start_trader_pending h' = auto_start_trader_pending h /\
  after_q h' = after_q h /\ proc_trader h' = proc_trader h /\ neural_runners h' = neural_runners h /\
  proc (proc_neural h') = proc (proc_neural h).
Proof.
  unfold start_all_scripts, train_all_coins. cbv zeta.
  destruct (stop_neural_frame (set_after_training true h)) as [C1 [N1 [T1 [R1 [Q1 [A1 [P1 [t0 [L1 F1]]]]]]]]].
  match goal with |- context [fold_left ?f ?l (stop_neural ?x)] =>
    destruct (fold_trainers_frame l (stop_neural x)) as [C2 [N2 [T2 [R2 [Q2 [A2 [P2 [t [L2 F2]]]]]]]]] end.
  rewrite N2, T2, R2, Q2, A2, P2, L2, L1, T1, R1, Q1, A1, P1, N1.
  split; [exists t0, t; split; [rewrite <- app_assoc; reflexivity|split; assumption]|].
  repeat split.
Qed.

(** [start_trainer_for_selected_coin]: the neural runner is asked to stop
    before the trainer is launched, and nothing else is logged. *)
Theorem start_trainer_stops_runner_first (coin0 : string) (h : hub) :
  let h' := start_trainer_for_selected_coin coin0 h in
  (exists t0 t, hlog h' = hlog h ++ t0 ++ t /\ Forall neural_stop t0 /\ Forall trainer_launch_step t) /\
  after_q h' = after_q h /\ proc_trader h' = proc_trader h /\ neural_runners h' = neural_runners h.
Proof.
  unfold start_trainer_for_selected_coin. cbv zeta.
  destruct (String.eqb (norm_coin coin0) "").
  - split; [exists [], []; split; [rewrite app_nil_r; reflexivity|split; constructor]|].
    repeat split.
  - destruct (stop_neural_frame h) as [C1 [N1 [T1 [R1 [Q1 [A1 [P1 [t0 [L1 F1]]]]]]]]].
    destruct (start_single_trainer_frame (norm_coin coin0) (stop_neural h))
      as [C2 [N2 [T2 [R2 [Q2 [A2 [P2 [t [L2 F2]]]]]]]]].
    rewrite T2, R2, Q2, L2, L1, T1, R1, Q1.
    split; [exists t0, t; split; [rewrite <- app_assoc; reflexivity|split; assumption]|].
    repeat split.
Qed.

(** ** The Start/Stop All button *)

Lemma stop_all_frame (h : hub) :
  let h' := stop_all_scripts h in
  os h' = os h /\ auto_start_runner_after_training h' = auto_start_runner_after_training h /\
  auto_start_trader_pending h' = false /\ _read_runner_ready h' = false.
Proof.
  split; [|split; [|split]].
  - unfold stop_all_scripts, write_ready, stop_trainers, stop_neural, stop_trader. cbv zeta.
    cbn [os emit set_fsys].
    match goal with |- context [fold_left stop_trainer_entry ?l ?x] =>
      destruct (fold_stop_entries l x) as [[O4 _] _] end.
    rewrite O4.
    destruct (stop_process_frame WNeural (_stop_process WTrader (set_pending false h))) as [O3 _].
    destruct (stop_process_frame WTrader (set_pending false h)) as [O2 _].
    rewrite O3, O2. reflexivity.
  - unfold stop_all_scripts, write_ready, stop_trainers, stop_neural, stop_trader. cbv zeta.
    cbn [auto_start_runner_after_training emit set_fsys].
    match goal with |- context [fold_left stop_trainer_entry ?l ?x] =>
      destruct (fold_stop_entries l x) as [_ [_ [_ [A4 _]]]] end.
    rewrite A4.
    destruct (stop_process_frame WNeural (_stop_process WTrader (set_pending false h))) as [_ [_ [_ [_ [A3 _]]]]].
    destruct (stop_process_frame WTrader (set_pending false h)) as [_ [_ [_ [_ [A2 _]]]]].
    rewrite A3, A2. reflexivity.
  - unfold stop_all_scripts, write_ready, stop_trainers. cbv zeta.
    cbn [auto_start_trader_pending emit set_fsys].
    rewrite fold_stop_trainers_pending. unfold stop_neural, stop_trader.
    rewrite !stop_process_pending. reflexivity.
  - unfold stop_all_scripts. apply write_ready_read.
Qed.

Lemma start_all_frame (h : hub) :
  let h' := start_all_scripts h in
  (exists t0 t, hlog h' = hlog h ++ t0 ++ t /\ Forall neural_stop t0 /\ Forall trainer_launch_step t) /\
  auto_start_runner_after_training h' = true /\ after_q h' = after_q h /\
  proc_trader h' = proc_trader h /\ proc (proc_neural h') = proc (proc_neural h).
Proof.
  unfold start_all_scripts, train_all_coins. cbv zeta.
  destruct (stop_neural_frame (set_after_training true h)) as [C1 [N1 [T1 [R1 [Q1 [A1 [P1 [t0 [L1 F1]]]]]]]]].
  match goal with |- context [fold_left ?f ?l (stop_neural ?x)] =>
    destruct (fold_trainers_frame l (stop_neural x)) as [C2 [N2 [T2 [R2 [Q2 [A2 [P2 [t [L2 F2]]]]]]]]] end.
  rewrite N2, T2, Q2, A2, L2, L1, T1, Q1, A1, N1.
  split; [exists t0, t; split; [rewrite <- app_assoc; reflexivity|split; assumption]|].
  repeat split.
Qed.

(** [toggle_all_scripts]: with the neural runner or the trader running,
    or a trader start pending, the button stops: the pending flag is
    cleared and [ready=false] written, but no process has left the table
    yet and the "start runner after training" flag is kept.  Otherwise it
    starts training only: the flag is set, and the log gains at most the
    neural runner's termination request, then trainer launches. *)
Theorem toggle_all_scripts_effect (h : hub) :
  (is_running h (proc (proc_neural h)) || is_running h (proc (proc_trader h)) ||
   auto_start_trader_pending h = true ->
   auto_start_trader_pending (toggle_all_scripts h) = false /\
   _read_runner_ready (toggle_all_scripts h) = false /\
   os (toggle_all_scripts h) = os h /\
   auto_start_runner_after_training (toggle_all_scripts h) = auto_start_runner_after_training h) /\
  (is_running h (proc (proc_neural h)) || is_running h (proc (proc_trader h)) ||
   auto_start_trader_pending h = false ->
   auto_start_runner_after_training (toggle_all_scripts h) = true /\
   after_q (toggle_all_scripts h) = after_q h /\
   proc_trader (toggle_all_scripts h) = proc_trader h /\
   (exists t0 t, hlog (toggle_all_scripts h) = hlog h ++ t0 ++ t /\
      Forall neural_stop t0 /\ Forall trainer_launch_step t)).
Proof.
  unfold toggle_all_scripts. cbv zeta. split; intros B; rewrite B.
  - destruct (stop_all_frame h) as [O [A [P R]]]. repeat split; assumption.
  - destruct (start_all_frame h) as [L [A [Q [T _]]]]. repeat split; assumption.
Qed.

(** ** A trainer that was started *)

Lemma isfile_write (f : fs) (p q : string) (c : content) :
  isfile f q = true -> isfile (fs_write f p c) q = true.
Proof.
  unfold isfile, fs_write. simpl. intros H.
  destruct (dict_get (dict_set (files f) p c) q) eqn:E; [reflexivity|].
  exfalso. apply (dict_get_set_some (files f) p q c); [|exact E].
  destruct (dict_get (files f) q); [discriminate|discriminate H].
Qed.

Lemma isfile_prepare (coin n : string) (h : hub) (q : string) :
  isfile (fsys h) q = true -> isfile (fsys (prepare_alt_folder coin n h)) q = true.
Proof.
  intros H. unfold prepare_alt_folder. destruct (String.eqb coin "BTC"); [exact H|]. cbv zeta. simpl fsys.
  assert (H1 : isfile (if isdir (fsys h) (coin_cwd h coin) then fsys h else fs_mkdir (fsys h) (coin_cwd h coin)) q = true).
  { destruct (isdir (fsys h) (coin_cwd h coin)); [exact H|].
    unfold fs_mkdir. destruct (isdir (fsys h) (coin_cwd h coin)); exact H. }
  destruct (isfile _ (join _ n)); [|exact H1].
  unfold fs_copy. destruct (dict_get _ _); [apply isfile_write|]; exact H1.
Qed.

(** A start of a coin whose trainer is running, with the configured
    trainer script present, changes no process and logs nothing. *)
Lemma start_single_trainer_running_noop (c : string) (h : hub) :
  lp_running h (trainers h) (norm_coin c) = true ->
  isfile (fsys h) (proc_trainer_path (cfg h)) = true ->
  same_procs h (_start_single_trainer c h) /\ hlog (_start_single_trainer c h) = hlog h.
Proof.
  intros R F. unfold _start_single_trainer.
  destruct (String.eqb (norm_coin c) ""); [split; [same_procs_tac|reflexivity]|].
  pose proof (isfile_prepare (norm_coin c) (script_neural_trainer (cfg h)) h _ F) as F'.
  destruct (prepare_alt_folder_fs (norm_coin c) (script_neural_trainer (cfg h)) h) as [f Ef].
  rewrite Ef in F' |- *. simpl fsys in F'. cbv zeta.
  assert (R' : lp_running (set_fsys f h) (trainers (set_fsys f h)) (norm_coin c) = true) by exact R.
  assert (F'' : isfile (fsys (set_fsys f h)) (proc_trainer_path (cfg (set_fsys f h))) = true) by exact F'.
  rewrite F''.
  destruct (isfile (fsys (set_fsys f h)) (join (coin_cwd h (norm_coin c)) (script_neural_trainer (cfg h))));
    [|rewrite F'']; rewrite R'; split; solve [same_procs_tac|reflexivity].
Qed.

(** [_start_single_trainer] with the configured trainer script present, no
    trainer of the coin running and [Popen] succeeding: the trainer is
    registered and running, the coin's status file says TRAINING, and
    starting the same coin again spawns nothing and logs nothing. *)
Theorem start_single_trainer_success (coin0 : string) (h : hub) :
  norm_coin coin0 <> "" ->
  lp_running h (trainers h) (norm_coin coin0) = false ->
  spawn_fails (os h) = false ->
  isfile (fsys h) (proc_trainer_path (cfg h)) = true ->
  let h' := _start_single_trainer coin0 h in
  lp_running h' (trainers h') (norm_coin coin0) = true /\
  read_status (fsys h') (status_path h (norm_coin coin0)) = Some "TRAINING" /\
  same_procs h' (_start_single_trainer coin0 h') /\ hlog (_start_single_trainer coin0 h') = hlog h'.
Proof.
  intros Hne R S F.
  assert (Main : lp_running (_start_single_trainer coin0 h) (trainers (_start_single_trainer coin0 h)) (norm_coin coin0) = true /\
     read_status (fsys (_start_single_trainer coin0 h)) (status_path h (norm_coin coin0)) = Some "TRAINING" /\
     isfile (fsys (_start_single_trainer coin0 h)) (proc_trainer_path (cfg (_start_single_trainer coin0 h))) = true).
  { unfold _start_single_trainer.
    destruct (String.eqb (norm_coin coin0) "") eqn:E; [apply String.eqb_eq in E; contradiction|].
    pose proof (isfile_prepare (norm_coin coin0) (script_neural_trainer (cfg h)) h _ F) as F'.
    destruct (prepare_alt_folder_fs (norm_coin coin0) (script_neural_trainer (cfg h)) h) as [f Ef].
    rewrite Ef in F' |- *. simpl fsys in F'. cbv zeta.
    assert (R' : lp_running (set_fsys f h) (trainers (set_fsys f h)) (norm_coin coin0) = false) by exact R.
    assert (S' : spawn_fails (os (set_fsys f h)) = false) by exact S.
    assert (F'' : isfile (fsys (set_fsys f h)) (proc_trainer_path (cfg (set_fsys f h))) = true) by exact F'.
    rewrite F''.
    destruct (isfile (fsys (set_fsys f h)) (join (coin_cwd h (norm_coin coin0)) (script_neural_trainer (cfg h))));
      [|rewrite F'']; rewrite R', S'; simpl.
    all: unfold lp_running, is_running, running; simpl;
      rewrite dict_get_set_same; simpl; rewrite Nat.eqb_refl; split; [reflexivity|split].
    all: try (unfold read_status; simpl; unfold status_path; rewrite dict_get_set_same; reflexivity).
    all: apply isfile_write; exact F'. }
  destruct Main as [M1 [M2 M3]].
  destruct (start_single_trainer_running_noop coin0 _ M1 M3) as [S1 L1].
  split; [exact M1|split; [exact M2|split; [exact S1|exact L1]]].
Qed.

(** ** The trainer-status cache *)

Section TrainerStatusCache.
Import StateStore.

(** The trainer-status read of [_tick]: a missing file reads as absent
    and leaves the cache; a cached entry at the observed mtime is used
    without decoding; otherwise a successful [json.load] is stored under
    the coin, and a failed one reads as [{}] and leaves the cache as it
    was, so the next tick decodes the file again. *)
Theorem trainer_status_read_contract {V} (fv : fview) (c : cache V) (coin path : string)
    (decode : string -> option V) (empty : V) :
  (fv path = None -> trainer_status_read fv c coin path decode empty = (None, c, false)) /\
  (forall m raw v, fv path = Some (m, raw) -> dict_get c coin = Some (m, v) ->
     trainer_status_read fv c coin path decode empty = (Some v, c, false)) /\
  (forall m raw v', fv path = Some (m, raw) -> (forall v, dict_get c coin <> Some (m, v)) ->
     decode raw = Some v' ->
     trainer_status_read fv c coin path decode empty = (Some v', dict_set c coin (m, v'), true)) /\
  (forall m raw, fv path = Some (m, raw) -> (forall v, dict_get c coin <> Some (m, v)) ->
     decode raw = None ->
     trainer_status_read fv c coin path decode empty = (Some empty, c, true)).
Proof.
  unfold trainer_status_read. split; [|split; [|split]].
  - intros H. rewrite H. reflexivity.
  - intros m raw v H Hc. rewrite H, Hc, Z.eqb_refl. reflexivity.
  - intros m raw v' H Hn D. rewrite H.
    destruct (dict_get c coin) as [[m' v]|] eqn:E; [|rewrite D; reflexivity].
    destruct (Z.eqb m' m) eqn:Em; [|rewrite D; reflexivity].
    apply Z.eqb_eq in Em. subst m'. exfalso. exact (Hn v eq_refl).
  - intros m raw H Hn D. rewrite H.
    destruct (dict_get c coin) as [[m' v]|] eqn:E; [|rewrite D; reflexivity].
    destruct (Z.eqb m' m) eqn:Em; [|rewrite D; reflexivity].
    apply Z.eqb_eq in Em. subst m'. exfalso. exact (Hn v eq_refl).
Qed.

End TrainerStatusCache.

(** ** Clearing training data *)

Lemma filter_pointwise {A} (g k : A -> bool) (l : list A) :
  (forall a, In a l -> g a = k a) -> filter g l = filter k l.
Proof.
  induction l as [|a r IH]; intros H; [reflexivity|]. simpl.
  rewrite (H a (or_introl eq_refl)), IH; [reflexivity|]. intros b Hb. apply H. right. exact Hb.
Qed.

Lemma filter_true {A} (l : list A) : filter (fun _ => true) l = l.
Proof. induction l as [|a r IH]; [reflexivity|]. simpl. rewrite IH. reflexivity. Qed.

Lemma filter_false_length {A} (l : list A) : length (filter (fun _ => false) l) = 0%nat.
Proof. induction l as [|a r IH]; [reflexivity|]. exact IH. Qed.

Lemma fs_remove_isfile (f : fs) (p q : string) : q <> p -> isfile (fs_remove f p) q = isfile f q.
Proof.
  intros Hq. unfold isfile, fs_remove. simpl.
  induction (files f) as [|[a c] r IH]; [reflexivity|]. simpl.
  destruct (String.eqb a p) eqn:E; simpl.
  - apply String.eqb_eq in E. subst a.
    destruct (String.eqb q p) eqn:E2; [apply String.eqb_eq in E2; contradiction|exact IH].
  - destruct (String.eqb q a); [reflexivity|exact IH].
Qed.

Lemma in_dict_get_some {V} (l : list (string * V)) (k : string) (v : V) :
  In (k, v) l -> exists v', dict_get l k = Some v'.
Proof.
  induction l as [|[a w] r IH]; intros H; [destruct H|]. simpl.
  destruct (String.eqb k a) eqn:E; [eexists; reflexivity|].
  destruct H as [H|H]; [injection H as -> ->; rewrite String.eqb_refl in E; discriminate|exact (IH H)].
Qed.

Lemma clear_inner (rm : string -> bool) (ps : list string) (n : nat) (f : fs) :
  NoDup ps -> (forall p, In p ps -> isfile f p = true) ->
  fold_left (remove_step rm) ps (n, f)
    = ((n + length (filter (fun p => negb (rm p)) ps))%nat,
       mkFs (filter (fun e => negb (existsb (String.eqb (fst e)) (filter (fun p => negb (rm p)) ps)))
               (files f)) (dirs f)).
Proof.
  revert n f. induction ps as [|p r IH]; intros n f Nd Hf; cbn [fold_left].
  - rewrite Nat.add_0_r. destruct f as [fl dl]. simpl. rewrite filter_true. reflexivity.
  - inversion Nd as [|? ? Np Nr]; subst.
    assert (Hr : forall q, In q r -> isfile f q = true) by (intros q Hq; apply Hf; right; exact Hq).
    cbn [filter]. unfold remove_step at 2, os_remove. rewrite (Hf p (or_introl eq_refl)).
    destruct (rm p) eqn:R; simpl negb; cbn iota.
    + rewrite orb_true_l. exact (IH n f Nr Hr).
    + rewrite orb_false_l. cbn iota. rewrite IH; [|exact Nr|].
      * simpl length. f_equal; [lia|]. unfold fs_remove. simpl. f_equal.
        induction (files f) as [|e fl IHf]; [reflexivity|]. simpl.
        destruct (String.eqb (fst e) p); simpl; [exact IHf|].
        destruct (existsb (String.eqb (fst e)) (filter (fun p => negb (rm p)) r)); simpl;
          [exact IHf|]. rewrite IHf. reflexivity.
      * intros q Hq. rewrite fs_remove_isfile; [exact (Hr q Hq)|].
        intros E. subst q. contradiction.
Qed.

Lemma glob_keys (g : string -> bool) (l : list (string * content)) :
  filter (fun e => negb (existsb (String.eqb (fst e)) (map fst (filter (fun e => g (fst e)) l)))) l
    = filter (fun e => negb (g (fst e))) l.
Proof.
  apply filter_pointwise. intros e He. f_equal.
  destruct (g (fst e)) eqn:G.
  - apply existsb_eqb_In. apply in_map. apply filter_In. split; assumption.
  - destruct (existsb (String.eqb (fst e)) (map fst (filter (fun e => g (fst e)) l))) eqn:E; [|reflexivity].
    apply existsb_eqb_In, in_map_iff in E. destruct E as [e' [Ek Hin]].
    apply filter_In in Hin. destruct Hin as [_ G']. rewrite Ek, G in G'. discriminate.
Qed.

Lemma filter_map_fst (g k : string -> bool) (l : list (string * content)) :
  filter k (map fst (filter (fun e => g (fst e)) l)) = map fst (filter (fun e => g (fst e) && k (fst e)) l).
Proof.
  induction l as [|e r IH]; [reflexivity|]. simpl.
  destruct (g (fst e)); simpl; [destruct (k (fst e)); simpl; rewrite IH; reflexivity|exact IH].
Qed.

Lemma nodup_keys_filter (g : string * content -> bool) (l : list (string * content)) :
  NoDup (map fst l) -> NoDup (map fst (filter g l)).
Proof.
  induction l as [|e r IH]; intros Nd; [constructor|]. simpl in Nd |- *.
  inversion Nd as [|? ? Ne Nr]; subst.
  destruct (g e); simpl; [|exact (IH Nr)]. constructor; [|exact (IH Nr)].
  intros Hin. apply Ne. apply in_map_iff in Hin. destruct Hin as [e' [Ek Hin]].
  apply filter_In in Hin. rewrite <- Ek. apply in_map. exact (proj1 Hin).
Qed.

Lemma glob_isfile (f : fs) (cwd pat p : string) : In p (glob f cwd pat) -> isfile f p = true.
Proof.
  unfold glob. intros Hin. apply in_map_iff in Hin. destruct Hin as [[k c] [Ek Hin]].
  apply filter_In in Hin. simpl in Ek. subst k.
  destruct (in_dict_get_some (files f) p c (proj1 Hin)) as [v E].
  unfold isfile. rewrite E. reflexivity.
Qed.

Lemma filter_length_split (g k : string * content -> bool) (l : list (string * content)) :
  (length (filter g l) + length (filter k (filter (fun e => negb (g e)) l)))%nat
    = length (filter (fun e => g e || k e) l).
Proof.
  induction l as [|e r IH]; [reflexivity|]. simpl.
  destruct (g e); simpl; [rewrite <- IH; reflexivity|].
  destruct (k e); simpl; [rewrite <- IH; lia|exact IH].
Qed.

Lemma filter_negb_split (g k : string * content -> bool) (l : list (string * content)) :
  filter (fun e => negb (k e)) (filter (fun e => negb (g e)) l)
    = filter (fun e => negb (g e || k e)) l.
Proof.
  induction l as [|e r IH]; [reflexivity|]. simpl.
  destruct (g e); simpl; [exact IH|]. destruct (k e); simpl; [exact IH|rewrite IH; reflexivity].
Qed.

Lemma andb_orb_distr_r' (a b c : bool) : a && c || b && c = (a || b) && c.
Proof. destruct a, b, c; reflexivity. Qed.

Lemma clear_outer (rm : string -> bool) (cwd : string) (pats : list string) (n : nat) (f : fs) :
  NoDup (map fst (files f)) ->
  fold_left (fun (acc : nat * fs) pat => fold_left (remove_step rm) (glob (snd acc) cwd pat) acc) pats (n, f)
    = ((n + length (filter (fun e => existsb (fun pat => glob_hit cwd pat (fst e)) pats && negb (rm (fst e)))
                      (files f)))%nat,
       mkFs (filter (fun e => negb (existsb (fun pat => glob_hit cwd pat (fst e)) pats && negb (rm (fst e))))
               (files f)) (dirs f)).
Proof.
  revert n f. induction pats as [|pat r IH]; intros n f Nd; cbn [fold_left].
  - destruct f as [fl dl]. simpl. rewrite filter_true, filter_false_length, Nat.add_0_r. reflexivity.
  - simpl snd. rewrite clear_inner.
    2: { unfold glob. apply nodup_keys_filter. exact Nd. }
    2: { intros p Hp. exact (glob_isfile f cwd pat p Hp). }
    rewrite IH.
    2: { simpl. apply nodup_keys_filter. exact Nd. }
    simpl files. simpl dirs. unfold glob.
    pose proof (filter_map_fst (glob_hit cwd pat) (fun p => negb (rm p)) (files f)) as FM.
    cbn beta in FM. rewrite FM.
    pose proof (glob_keys (fun p => glob_hit cwd pat p && negb (rm p)) (files f)) as GK.
    cbn beta in GK. rewrite GK.
    rewrite length_map, <- Nat.add_assoc.
    rewrite (filter_length_split (fun e => glob_hit cwd pat (fst e) && negb (rm (fst e)))
               (fun e => existsb (fun pat => glob_hit cwd pat (fst e)) r && negb (rm (fst e)))).
    rewrite (filter_negb_split (fun e => glob_hit cwd pat (fst e) && negb (rm (fst e)))
               (fun e => existsb (fun pat => glob_hit cwd pat (fst e)) r && negb (rm (fst e)))).
    f_equal; [f_equal; f_equal|f_equal]; apply filter_pointwise; intros e _; simpl existsb;
      rewrite andb_orb_distr_r'; reflexivity.
Qed.

Lemma clear_training_data_files (rm : string -> bool) (coin0 : string) (h : hub) :
  NoDup (map fst (files (fsys h))) ->
  let cwd := coin_cwd h (norm_coin coin0) in
  let target := fun p => existsb (fun pat => glob_hit cwd pat p) clear_patterns && negb (rm p) in
  let r := _clear_training_data rm coin0 h in
  files (fsys (snd r)) = filter (fun e => negb (target (fst e))) (files (fsys h)) /\
  fst r = length (filter (fun e => target (fst e)) (files (fsys h))) /\
  dirs (fsys (snd r)) = dirs (fsys h) /\
  snd r = set_fsys (fsys (snd r)) h.
Proof.
  intros Nd. unfold _clear_training_data. cbv zeta. rewrite (clear_outer rm _ _ _ _ Nd). simpl. repeat split.
Qed.

(** [_clear_training_data] on a coin folder that [glob] reads literally,
    in a file system where a path names one file: it deletes exactly the
    files directly inside the folder whose names match one of the patterns
    and whose [os.remove] succeeds (files of sub-folders, files it cannot
    remove and every other file stay), returns how many it deleted, and
    changes nothing else. *)
Theorem clear_training_data_removes_matches (rm : string -> bool) (coin0 : string) (h : hub) :
  literal_dir (coin_cwd h (norm_coin coin0)) = true ->
  NoDup (map fst (files (fsys h))) ->
  let cwd := coin_cwd h (norm_coin coin0) in
  let target := fun p => existsb (fun pat => glob_hit cwd pat p) clear_patterns && negb (rm p) in
  let r := _clear_training_data rm coin0 h in
  files (fsys (snd r)) = filter (fun e => negb (target (fst e))) (files (fsys h)) /\
  fst r = length (filter (fun e => target (fst e)) (files (fsys h))) /\
  dirs (fsys (snd r)) = dirs (fsys h) /\
  snd r = set_fsys (fsys (snd r)) h.
Proof.
  intros _ Nd. cbv zeta. exact (clear_training_data_files rm coin0 h Nd).
Qed.

Lemma is_space_upper (c : ascii) : is_space (upper_char c) = is_space c.
Proof. destruct c as [[] [] [] [] [] [] [] []]; reflexivity. Qed.

Lemma lstrip_upper (s : string) : lstrip (upper s) = upper (lstrip s).
Proof.
  induction s as [|a s IH]; [reflexivity|]. simpl. rewrite is_space_upper.
  destruct (is_space a); [exact IH|reflexivity].
Qed.

Lemma rev_str_upper (s acc : string) : rev_str (upper s) (upper acc) = upper (rev_str s acc).
Proof.
  revert acc. induction s as [|a s IH]; intros acc; [reflexivity|]. simpl.
  exact (IH (String a acc)).
Qed.

(** [c.upper().strip()] and [c.strip().upper()] name the same coin. *)
Lemma strip_upper (s : string) : strip (upper s) = norm_coin s.
Proof.
  unfold strip, norm_coin. rewrite lstrip_upper.
  change EmptyString with (upper EmptyString). rewrite rev_str_upper, lstrip_upper, rev_str_upper.
  reflexivity.
Qed.

Lemma str_app_assoc (a b c : string) : ((a ++ b) ++ c)%string = (a ++ b ++ c)%string.
Proof. induction a as [|x a IH]; [reflexivity|]. simpl. rewrite IH. reflexivity. Qed.

Lemma glob_hit_join (d pat n : string) : glob_hit d pat (join d n) = negb (has_slash n) && fnmatch pat n.
Proof. unfold glob_hit, join. rewrite <- str_app_assoc, strip_prefix_app. reflexivity. Qed.

Lemma dict_get_filter_none (g : string * content -> bool) (l : list (string * content)) (k : string) :
  (forall e, In e l -> fst e = k -> g e = false) -> dict_get (filter g l) k = None.
Proof.
  induction l as [|[a c] r IH]; intros H; [reflexivity|]. simpl.
  destruct (g (a, c)) eqn:G.
  - simpl. destruct (String.eqb k a) eqn:E.
    + apply String.eqb_eq in E. subst a. rewrite (H (k, c) (or_introl eq_refl) eq_refl) in G. discriminate.
    + apply IH. intros e He. apply H. right. exact He.
  - apply IH. intros e He. apply H. right. exact He.
Qed.

(** Outside dry-run mode, a coin with a configured folder that [glob]
    reads literally no longer counts as trained once [_clear_training_data]
    has run for it and removed its status file and its completion time
    stamp. *)
Theorem clear_training_data_untrains (rm : string -> bool) (coin0 : string) (h : hub) :
  dry_run_mode (cfg h) = false ->
  dict_get (coin_folders (cfg h)) (norm_coin coin0) <> None ->
  literal_dir (coin_cwd h (norm_coin coin0)) = true ->
  NoDup (map fst (files (fsys h))) ->
  rm (join (coin_cwd h (norm_coin coin0)) "trainer_status.json") = false ->
  rm (join (coin_cwd h (norm_coin coin0)) "trainer_last_training_time.txt") = false ->
  _coin_is_trained (snd (_clear_training_data rm coin0 h)) coin0 = false.
Proof.
  intros D Hc _ Nd R1 R2.
  destruct (clear_training_data_files rm coin0 h Nd) as [Hf [_ [_ Hs]]].
  destruct (dict_get (coin_folders (cfg h)) (norm_coin coin0)) as [F|] eqn:EF; [|contradiction].
  assert (Hcwd : coin_cwd h (norm_coin coin0) = F) by (unfold coin_cwd, dict_get_default; rewrite EF; reflexivity).
  rewrite Hcwd in Hf, R1, R2.
  set (r := _clear_training_data rm coin0 h) in *.
  assert (Hcfg : cfg (snd r) = cfg h) by (rewrite Hs; reflexivity).
  assert (Gone : forall n, existsb (fun pat => fnmatch pat n) clear_patterns = true -> has_slash n = false ->
                 rm (join F n) = false -> dict_get (files (fsys (snd r))) (join F n) = None).
  { intros n Hm Hn Hr. rewrite Hf. apply dict_get_filter_none. intros e _ Ek. rewrite Ek, Hr.
    rewrite andb_true_r. apply negb_false_iff. rewrite <- Hm. unfold clear_patterns. simpl existsb.
    rewrite !glob_hit_join, Hn. reflexivity. }
  unfold _coin_is_trained. rewrite strip_upper, Hcfg.
  unfold dict_get_default. rewrite EF.
  destruct (String.eqb F "" || negb (isdir (fsys (snd r)) F)); [reflexivity|].
  rewrite D. simpl andb. cbv zeta.
  assert (RS : read_status (fsys (snd r)) (join F "trainer_status.json") = None).
  { unfold read_status. rewrite Gone; reflexivity || exact R1. }
  assert (ST : read_stamp (fsys (snd r)) (join F "trainer_last_training_time.txt") = None).
  { unfold read_stamp. rewrite Gone; reflexivity || exact R2. }
  rewrite RS, ST. reflexivity.
Qed.

(** ** Per-coin runners *)



(** One call of [start_neural_for_coin] leaves the configuration, the
    trader, the neural runner, the trainers, the poll state, the timers
    and the clock as they are. It returns having logged at most one error
    dialog or the spawn of the coin's runner, or raises [AttributeError]
    having logged nothing, spawned nothing and registered nothing. *)
Lemma start_neural_for_coin_frame (c : string) (h : hub) :
  match start_neural_for_coin c h with
  | Ok h' => runner_frame h h' /\ exists t, hlog h' = hlog h ++ t /\ Forall (runner_step [c]) t
  | Raised e h' => e = "AttributeError" /\ runner_frame h h' /\ hlog h' = hlog h /\
                   os h' = os h /\ neural_runners h' = neural_runners h
  end.
Proof.
  assert (Fr : forall f, runner_frame h (set_fsys f h)) by (intros f; repeat split).
  unfold start_neural_for_coin.
  destruct (String.eqb (norm_coin c) "").
  { split; [repeat split|]. exists []. rewrite app_nil_r. split; [reflexivity|constructor]. }
  destruct (prepare_alt_folder_fs (norm_coin c) (script_neural_runner2 (cfg h)) h) as [f Ef].
  rewrite Ef. cbv zeta.
  match goal with |- context [match ?x with Some _ => _ | None => _ end] => destruct x as [path|] end.
  - destruct (dict_get (neural_runners (set_fsys f h)) (norm_coin c)).
    + split; [reflexivity|split; [exact (Fr f)|repeat split]].
    + simpl spawn_fails. destruct (spawn_fails (os h)).
      * split; [repeat split|]. exists [EError "Failed to start"].
        split; [reflexivity|]. constructor; [left; eexists; reflexivity|constructor].
      * split; [repeat split|]. eexists. split; [reflexivity|].
        constructor; [|constructor]. right. do 3 eexists. split; [left; reflexivity|reflexivity].
  - split; [repeat split|]. exists [EError "Missing runner"].
    split; [reflexivity|]. constructor; [left; eexists; reflexivity|constructor].
Qed.


(** Once the runner script resolves, a start of a coin that has a
    registered runner, running or not, reads [.proc] on its [LogProc] and
    raises [AttributeError]: no spawn, no log entry, no timer. *)
Lemma start_neural_for_coin_registered (c : string) (h : hub) :
  norm_coin c <> "" -> dict_get (neural_runners h) (norm_coin c) <> None ->
  isfile (fsys h) (join (project_dir (cfg h)) (script_neural_runner2 (cfg h))) = true ->
  exists h'', start_neural_for_coin c h = Raised "AttributeError" h'' /\ same_procs h h'' /\
    hlog h'' = hlog h /\ after_q h'' = after_q h.
Proof.
  intros Hne Hd F. unfold start_neural_for_coin.
  destruct (String.eqb (norm_coin c) "") eqn:E; [apply String.eqb_eq in E; contradiction|].
  pose proof (isfile_prepare (norm_coin c) (script_neural_runner2 (cfg h)) h _ F) as F'.
  destruct (prepare_alt_folder_fs (norm_coin c) (script_neural_runner2 (cfg h)) h) as [f Ef].
  rewrite Ef in F' |- *. cbv zeta.
  change (cfg (set_fsys f h)) with (cfg h). change (neural_runners (set_fsys f h)) with (neural_runners h).
  change (fsys (set_fsys f h)) with f. simpl fsys in F'.
  destruct (dict_get (neural_runners h) (norm_coin c)) as [lp|]; [|contradiction].
  destruct (isfile f (join (coin_cwd h (norm_coin c)) (script_neural_runner2 (cfg h)))); [|rewrite F'];
    eexists; (split; [reflexivity|]); (split; [same_procs_tac|split; reflexivity]).
Qed.

(** [start_neural_for_coin] with the project's runner script present, no
    runner of the coin registered and [Popen] succeeding: the coin's
    runner is spawned under the next pid, registered and running. Starting
    the same coin again then raises [AttributeError] without spawning or
    logging anything. *)
Theorem start_neural_for_coin_success (coin0 : string) (h : hub) :
  norm_coin coin0 <> "" ->
  dict_get (neural_runners h) (norm_coin coin0) = None ->
  spawn_fails (os h) = false ->
  isfile (fsys h) (join (project_dir (cfg h)) (script_neural_runner2 (cfg h))) = true ->
  exists h', start_neural_for_coin coin0 h = Ok h' /\
    lp_running h' (neural_runners h') (norm_coin coin0) = true /\
    (exists p, hlog h' = hlog h ++ [ESpawn (RRunner (norm_coin coin0)) (next_pid (os h)) p]) /\
    exists h'', start_neural_for_coin coin0 h' = Raised "AttributeError" h'' /\
      same_procs h' h'' /\ hlog h'' = hlog h'.
Proof.
  intros Hne D S F.
  assert (Main : exists h', start_neural_for_coin coin0 h = Ok h' /\
    lp_running h' (neural_runners h') (norm_coin coin0) = true /\
    (exists p, hlog h' = hlog h ++ [ESpawn (RRunner (norm_coin coin0)) (next_pid (os h)) p]) /\
    dict_get (neural_runners h') (norm_coin coin0) <> None /\
    isfile (fsys h') (join (project_dir (cfg h')) (script_neural_runner2 (cfg h'))) = true).
  { unfold start_neural_for_coin.
    destruct (String.eqb (norm_coin coin0) "") eqn:E; [apply String.eqb_eq in E; contradiction|].
    pose proof (isfile_prepare (norm_coin coin0) (script_neural_runner2 (cfg h)) h _ F) as F'.
    destruct (prepare_alt_folder_fs (norm_coin coin0) (script_neural_runner2 (cfg h)) h) as [f Ef].
    rewrite Ef in F' |- *. cbv zeta.
    change (cfg (set_fsys f h)) with (cfg h). change (neural_runners (set_fsys f h)) with (neural_runners h).
    change (fsys (set_fsys f h)) with f. change (spawn_fails (os (set_fsys f h))) with (spawn_fails (os h)).
    simpl fsys in F'. rewrite D, S.
    destruct (isfile f (join (coin_cwd h (norm_coin coin0)) (script_neural_runner2 (cfg h)))); [|rewrite F'];
      (eexists; split; [reflexivity|]);
      unfold lp_running, is_running, running; simpl; rewrite dict_get_set_same; simpl;
      rewrite Nat.eqb_refl; (split; [reflexivity|split; [eexists; reflexivity|split; [discriminate|exact F']]]). }
  destruct Main as [h' [E [R [L [D' F']]]]].
  exists h'. split; [exact E|split; [exact R|split; [exact L|]]].
  destruct (start_neural_for_coin_registered coin0 h' Hne D' F') as [h'' [E2 [S2 [L2 _]]]].
  exists h''. split; [exact E2|split; [exact S2|exact L2]].
Qed.


(** When the first coin found trained already has a registered runner
    (the fleet was started before), [_start_neural_then_trader] raises
    [AttributeError] on it: the pending flag is set again but no poll is
    scheduled, and no process or registry changes. *)
Theorem start_neural_then_trader_registered_raises (h : hub) (c : string) (r : list string) :
  filter (_coin_is_trained h) (coins (cfg h)) = c :: r ->
  norm_coin c <> "" ->
  dict_get (neural_runners h) (norm_coin c) <> None ->
  isfile (fsys h) (join (project_dir (cfg h)) (script_neural_runner2 (cfg h))) = true ->
  exists h', _start_neural_then_trader h = Raised "AttributeError" h' /\
    auto_start_trader_pending h' = true /\ after_q h' = after_q h /\
    hlog h' = hlog h ++ [ESetPending true] /\ same_procs h h'.
Proof.
  intros Ht Hne Hd F. unfold _start_neural_then_trader. cbv zeta.
  set (h1 := set_poll_count 0 (set_pending true h)).
  change (_coin_is_trained h1) with (_coin_is_trained h).
  change (coins (cfg h1)) with (coins (cfg h)). rewrite Ht. cbn [start_runners].
  destruct (start_neural_for_coin_registered c h1 Hne Hd F) as [h'' [E [S [L Q]]]].
  rewrite E. exists h''. split; [reflexivity|].
  destruct S as [S1 [S2 [S3 [S4 S5]]]].
  split; [|split; [exact Q|split; [exact L|]]].
  - pose proof (start_neural_for_coin_frame c h1) as Fr. rewrite E in Fr.
    destruct Fr as [_ [[_ [_ [_ [_ [P _]]]]] _]]. rewrite P. reflexivity.
  - unfold same_procs. rewrite S1, S2, S3, S4, S5. repeat split.
Qed.

(** ** Instances of the further properties *)

Section ExtraWitnesses.
Import Session.

Lemma start_process_spawns_witness :
  is_running (hub0 fs0) (proc (get_pi WTrader (hub0 fs0))) = false /\
  isfile (fsys (hub0 fs0)) (ppath (get_pi WTrader (hub0 fs0))) = true /\
  spawn_fails (os (hub0 fs0)) = false /\
  proc (get_pi WTrader (_start_process WTrader (hub0 fs0))) = Some 1%nat /\
  hlog (_start_process WTrader (hub0 fs0)) = [ESpawn RTrader 1 "/p/pt_trader.py"].
Proof.
  split; [reflexivity|split; [reflexivity|split; [reflexivity|]]].
  destruct (start_process_spawns WTrader (hub0 fs0) eq_refl eq_refl eq_refl)
    as [P [_ [_ [_ [L _]]]]].
  split; [exact P|exact L].
Defined.

Lemma stop_process_fire_and_forget_witness :
  proc (get_pi WTrader (_start_process WTrader (hub0 fs0))) = Some 1%nat /\
  is_running (_start_process WTrader (hub0 fs0)) (Some 1%nat) = true /\
  _start_process WTrader (_stop_process WTrader (_start_process WTrader (hub0 fs0)))
    = _stop_process WTrader (_start_process WTrader (hub0 fs0)).
Proof.
  split; [reflexivity|split; [reflexivity|]].
  destruct (stop_process_fire_and_forget WTrader (_start_process WTrader (hub0 fs0)) 1
              eq_refl eq_refl) as [_ [_ [_ [_ [S _]]]]].
  exact S.
Defined.

Lemma single_poll_keeps_running_trader_witness :
  is_running (_start_process WTrader (hub0 fs0))
    (proc (proc_trader (_start_process WTrader (hub0 fs0)))) = true /\
  same_procs (_start_process WTrader (hub0 fs0))
    (fst (_poll_runner_ready_then_start_trader (_start_process WTrader (hub0 fs0)))).
Proof.
  split; [reflexivity|].
  apply single_poll_keeps_running_trader. reflexivity.
Defined.

Lemma reader_thread_queue_witness :
  ~ In "" ["tick  "; "done"] /\
  _reader_thread "[BTC] " (["tick  "; "done"] ++ "" :: ["late"])
    = ["[BTC] tick"; "[BTC] done"; "[BTC] [process exited]"].
Proof.
  assert (N : ~ In "" ["tick  "; "done"]) by (simpl; intros [E|[E|[]]]; discriminate E).
  split; [exact N|].
  exact (proj1 (reader_thread_queue "[BTC] " ["tick  "; "done"] ["late"] N)).
Defined.

Lemma status_map_shows_running_trainer_witness :
  dict_get (trainers hub_training) "BTC"
    = Some (mkLogProc (mkProcInfo "Trainer-BTC" "/n/pt_trainer.py" (Some 1%nat) None) "BTC" true) /\
  (dict_get (_training_status_map_full (fun _ => 0%Z) hub_training) "BTC" = Some "TRAINED" \/
   dict_get (_training_status_map_full (fun _ => 0%Z) hub_training) "BTC" = Some "TRAINING").
Proof.
  split; [reflexivity|].
  apply (status_map_shows_running_trainer (fun _ => 0%Z) hub_training "BTC"
           (mkLogProc (mkProcInfo "Trainer-BTC" "/n/pt_trainer.py" (Some 1%nat) None) "BTC" true));
    [simpl; left; reflexivity|reflexivity|discriminate|reflexivity|reflexivity].
Defined.

Lemma stop_selected_trainer_witness :
  is_running hub_training (Some 1%nat) = true /\
  read_status (fsys (stop_trainer_for_selected_coin " btc" hub_training))
    (status_path hub_training "BTC") = Some "STOPPED".
Proof.
  split; [reflexivity|].
  destruct (stop_selected_trainer " btc" hub_training
              (mkLogProc (mkProcInfo "Trainer-BTC" "/n/pt_trainer.py" (Some 1%nat) None) "BTC" true)
              1 eq_refl eq_refl eq_refl) as [_ [S _]].
  exact S.
Defined.

Lemma start_single_trainer_success_witness :
  lp_running (hub0 fs0) (trainers (hub0 fs0)) "BTC" = false /\
  read_status (fsys (_start_single_trainer "btc" (hub0 fs0))) (status_path (hub0 fs0) "BTC")
    = Some "TRAINING".
Proof.
  split; [reflexivity|].
  destruct (start_single_trainer_success "btc" (hub0 fs0)
              ltac:(discriminate) eq_refl eq_refl eq_refl) as [_ [S _]].
  exact S.
Defined.

(** BTC's status file cannot be removed (a permission error): only the
    time stamp is deleted. *)
Lemma clear_training_data_removes_matches_witness :
  literal_dir (coin_cwd (hub0 fs_stopped) "BTC") = true /\
  fst (_clear_training_data (String.eqb "/n/trainer_status.json") "btc" (hub0 fs_stopped)) = 1%nat /\
  dict_get (files (fsys (snd (_clear_training_data (String.eqb "/n/trainer_status.json") "btc" (hub0 fs_stopped)))))
    "/n/trainer_status.json" = Some (CStatus (Some "STOPPED")).
Proof.
  assert (L : literal_dir (coin_cwd (hub0 fs_stopped) (norm_coin "btc")) = true) by (vm_compute; reflexivity).
  assert (N : NoDup (map fst (files (fsys (hub0 fs_stopped))))).
  { simpl. repeat constructor; simpl; intros H; repeat (destruct H as [H|H]; [discriminate H|]); exact H. }
  destruct (clear_training_data_removes_matches (String.eqb "/n/trainer_status.json") "btc" (hub0 fs_stopped) L N)
    as [Fs [C _]].
  split; [exact L|split].
  - rewrite C. vm_compute. reflexivity.
  - rewrite Fs. vm_compute. reflexivity.
Defined.

Lemma clear_training_data_untrains_witness :
  _coin_is_trained (hub0 fs_stopped) "BTC" = true /\
  _coin_is_trained (snd (_clear_training_data (fun _ => false) "BTC" (hub0 fs_stopped))) "BTC" = false.
Proof.
  split; [vm_compute; reflexivity|].
  apply clear_training_data_untrains; [reflexivity|discriminate|vm_compute; reflexivity| |reflexivity|reflexivity].
  simpl. repeat constructor; simpl; intros H; repeat (destruct H as [H|H]; [discriminate H|]); exact H.
Defined.

Lemma start_neural_for_coin_success_witness :
  dict_get (neural_runners (hub0 fs0)) "BTC" = None /\
  exists h', start_neural_for_coin " btc" (hub0 fs0) = Ok h' /\
    exists h'', start_neural_for_coin " btc" h' = Raised "AttributeError" h''.
Proof.
  split; [reflexivity|].
  destruct (start_neural_for_coin_success " btc" (hub0 fs0)
              ltac:(discriminate) eq_refl eq_refl eq_refl) as [h' [E [_ [_ [h'' [E2 _]]]]]].
  exists h'. split; [exact E|]. exists h''. exact E2.
Defined.

(** After the fleet spawn of the session trace, the BTC runner is
    registered and a second [_start_neural_then_trader] raises. *)
Lemma start_neural_then_trader_registered_raises_witness :
  filter (_coin_is_trained (run fleet_spawn (hub0 fs0))) (coins (cfg (run fleet_spawn (hub0 fs0)))) = ["BTC"] /\
  dict_get (neural_runners (run fleet_spawn (hub0 fs0))) "BTC" <> None /\
  exists h', _start_neural_then_trader (run fleet_spawn (hub0 fs0)) = Raised "AttributeError" h' /\
    after_q h' = after_q (run fleet_spawn (hub0 fs0)).
Proof.
  assert (T : filter (_coin_is_trained (run fleet_spawn (hub0 fs0))) (coins (cfg (run fleet_spawn (hub0 fs0)))) = ["BTC"])
    by (vm_compute; reflexivity).
  assert (D : dict_get (neural_runners (run fleet_spawn (hub0 fs0))) "BTC" <> None)
    by (vm_compute; discriminate).
  split; [exact T|split; [exact D|]].
  destruct (start_neural_then_trader_registered_raises (run fleet_spawn (hub0 fs0)) "BTC" [] T
              ltac:(discriminate) D ltac:(vm_compute; reflexivity)) as [h' [E [_ [Q _]]]].
  exists h'. split; [exact E|exact Q].
Defined.

End ExtraWitnesses.
